(** * The report page: src/app/report/[userId]/page.tsx

    A shallow embedding of the [ReportPage] component and of the event
    loop that drives it.  The component's reactive state is a record, each
    handler of the source is a function on that record which also returns
    the side effects it requests (network calls, geolocation, console
    output), and the asynchronous parts ([await], [setTimeout], the
    geolocation callbacks) are events of a small machine.

    Conventions.
    - A JavaScript string is a [string]: one character per UTF-16 code
      unit, for the code units below 256.  Where a JSON escape denotes a
      code unit outside that range, the reference platform carries a
      question mark in its place.
    - A JavaScript number is an IEEE-754 binary64 value, [spec_float] with
      precision 53 and maximal exponent 1024.  The two numbers of the page
      that only ever hold small integers ([rating], [hoverRating]) and the
      HTTP status are integers.
    - What the browser and the language runtime provide ([parseFloat],
      [JSON.parse], [JSON.stringify], [encodeURIComponent], the conversion
      of a value to a string, the text of the engine's own errors) is the
      interface [Platform]; the page is written against the interface and
      [Reference.platform] is an executable instance of it. *)

From Stdlib Require Import ZArith NArith List String Ascii Bool Lia.
From Stdlib Require Import SpecFloat.
Import ListNotations.

Local Open Scope string_scope.
Local Open Scope Z_scope.

Set Warnings "-register-all".

(** ** JavaScript values *)

Definition number : Type := spec_float.

Definition prec : Z := 53.
Definition emax : Z := 1024.

(** ToBoolean on a number: NaN, +0 and -0 are falsy. *)
Definition number_truthy (x : number) : bool :=
  match x with
  | S754_nan | S754_zero _ => false
  | S754_infinity _ | S754_finite _ _ _ => true
  end.

(** ToBoolean on a string: only the empty string is falsy. *)
Definition string_truthy (s : string) : bool :=
  match s with
  | EmptyString => false
  | String _ _ => true
  end.

(** The number denoted by an integer (exact below 2^53). *)
Definition number_of_Z (z : Z) : number := binary_normalize prec emax z 0 false.

(** A value as [JSON.parse] builds it and [JSON.stringify] reads it.  The
    fields of an object are in insertion order. *)
Inductive json : Type :=
| JNull
| JBool (b : bool)
| JNum (n : number)
| JStr (s : string)
| JArr (items : list json)
| JObj (fields : list (string * json)).

Definition json_truthy (v : json) : bool :=
  match v with
  | JNull => false
  | JBool b => b
  | JNum n => number_truthy n
  | JStr s => string_truthy s
  | JArr _ | JObj _ => true
  end.

(** Own property of an object built from key/value pairs: a later pair
    with the same key overrides an earlier one. *)
Fixpoint get_field (key : string) (fields : list (string * json)) : option json :=
  match fields with
  | [] => None
  | (k, v) :: rest =>
      match get_field key rest with
      | Some v' => Some v'
      | None => if String.eqb k key then Some v else None
      end
  end.

(** The property names of an object, in order. *)
Definition field_names (v : json) : list string :=
  match v with
  | JObj fields => map fst fields
  | _ => []
  end.

(** The outcome of an evaluation that may throw; [Throw] carries the
    [message] of the error. *)
Inductive completion (A : Type) : Type :=
| Normal (a : A)
| Throw (message : string).
Arguments Normal {A} a.
Arguments Throw {A} message.

Definition bind {A B : Type} (c : completion A) (k : A -> completion B) : completion B :=
  match c with
  | Normal a => k a
  | Throw msg => Throw msg
  end.

Notation "x <- c ;; k" := (bind c (fun x => k))
  (at level 61, c at next level, right associativity).

(** [String.prototype.includes]. *)
Fixpoint includes (needle hay : string) : bool :=
  if prefix needle hay then true
  else match hay with
       | EmptyString => false
       | String _ rest => includes needle rest
       end.

(** Decimal text of a non-negative integer, as a template literal prints it. *)
Fixpoint digits_of (fuel : nat) (n : N) (acc : string) : string :=
  match fuel with
  | O => acc
  | S fuel' =>
      let acc' := String (ascii_of_N (48 + N.modulo n 10)) acc in
      if N.ltb n 10 then acc' else digits_of fuel' (N.div n 10) acc'
  end.

Definition N_to_string (n : N) : string := digits_of (S (N.to_nat (N.log2 n))) n "".

(** ** The platform *)

Class Platform : Type := {
  (** the global [parseFloat] *)
  parseFloat : string -> number;
  (** the global [encodeURIComponent] *)
  encodeURIComponent : string -> string;
  (** [JSON.parse]; [None] when it throws a SyntaxError *)
  JSON_parse : string -> option json;
  (** [JSON.stringify] *)
  JSON_stringify : json -> string;
  (** the abstract operation ToString on a parsed value *)
  ToString : json -> completion string;
  ToString_string : forall s, ToString (JStr s) = Normal s;
  (** the message of the TypeError raised by reading a property of [null] *)
  null_property_message : string -> string
}.

(** ** The page's data *)

Record Coord : Type := { lat : number; lng : number }.

Module Place.
Record t : Type := { lat : string; lon : string; display_name : string }.
End Place.

Record Props : Type := {
  userId : string;                    (* the route parameter *)
  latParam : option string;           (* searchParams.get("lat") *)
  lngParam : option string;           (* searchParams.get("lng") *)
  geolocation_in_navigator : bool     (* "geolocation" in navigator *)
}.

Record State : Type := {
  selectedLocation : option Coord;
  description : string;
  submitMessage : string;
  submitting : bool;
  searchQuery : string;
  suggestions : list Place.t;
  isClient : bool;
  rating : Z;
  hoverRating : Z
}.

Definition setSelectedLocation (v : option Coord) (st : State) : State :=
  {| selectedLocation := v; description := description st;
     submitMessage := submitMessage st; submitting := submitting st;
     searchQuery := searchQuery st; suggestions := suggestions st;
     isClient := isClient st; rating := rating st; hoverRating := hoverRating st |}.

Definition setDescription (v : string) (st : State) : State :=
  {| selectedLocation := selectedLocation st; description := v;
     submitMessage := submitMessage st; submitting := submitting st;
     searchQuery := searchQuery st; suggestions := suggestions st;
     isClient := isClient st; rating := rating st; hoverRating := hoverRating st |}.

Definition setSubmitMessage (v : string) (st : State) : State :=
  {| selectedLocation := selectedLocation st; description := description st;
     submitMessage := v; submitting := submitting st;
     searchQuery := searchQuery st; suggestions := suggestions st;
     isClient := isClient st; rating := rating st; hoverRating := hoverRating st |}.

Definition setSubmitting (v : bool) (st : State) : State :=
  {| selectedLocation := selectedLocation st; description := description st;
     submitMessage := submitMessage st; submitting := v;
     searchQuery := searchQuery st; suggestions := suggestions st;
     isClient := isClient st; rating := rating st; hoverRating := hoverRating st |}.

Definition setSearchQuery (v : string) (st : State) : State :=
  {| selectedLocation := selectedLocation st; description := description st;
     submitMessage := submitMessage st; submitting := submitting st;
     searchQuery := v; suggestions := suggestions st;
     isClient := isClient st; rating := rating st; hoverRating := hoverRating st |}.

Definition setSuggestions (v : list Place.t) (st : State) : State :=
  {| selectedLocation := selectedLocation st; description := description st;
     submitMessage := submitMessage st; submitting := submitting st;
     searchQuery := searchQuery st; suggestions := v;
     isClient := isClient st; rating := rating st; hoverRating := hoverRating st |}.

Definition setIsClient (v : bool) (st : State) : State :=
  {| selectedLocation := selectedLocation st; description := description st;
     submitMessage := submitMessage st; submitting := submitting st;
     searchQuery := searchQuery st; suggestions := suggestions st;
     isClient := v; rating := rating st; hoverRating := hoverRating st |}.

Definition setRating (v : Z) (st : State) : State :=
  {| selectedLocation := selectedLocation st; description := description st;
     submitMessage := submitMessage st; submitting := submitting st;
     searchQuery := searchQuery st; suggestions := suggestions st;
     isClient := isClient st; rating := v; hoverRating := hoverRating st |}.

Definition setHoverRating (v : Z) (st : State) : State :=
  {| selectedLocation := selectedLocation st; description := description st;
     submitMessage := submitMessage st; submitting := submitting st;
     searchQuery := searchQuery st; suggestions := suggestions st;
     isClient := isClient st; rating := rating st; hoverRating := v |}.

(** ** Side effects *)

Record Request : Type := {
  url : string;
  method : string;
  headers : list (string * string);
  body : option string
}.

Inductive ConsoleLevel : Type := log | warn | error.

Inductive Effect : Type :=
| Fetch (req : Request)                          (* fetch(url, init) *)
| GetCurrentPosition (enableHighAccuracy : bool) (* navigator.geolocation.getCurrentPosition *)
| Console (level : ConsoleLevel) (label : string).

Definition is_geolocation (e : Effect) : bool :=
  match e with GetCurrentPosition _ => true | _ => false end.

(** The network calls among the effects, in order. *)
Fixpoint network_calls (effs : list Effect) : list Request :=
  match effs with
  | [] => []
  | Fetch r :: rest => r :: network_calls rest
  | _ :: rest => network_calls rest
  end.

Definition geolocation_requests (effs : list Effect) : nat :=
  List.length (filter is_geolocation effs).

(** How the promise of the submission settles: [fetch] or
    [response.text()] rejects with an error, or the response and its body
    text arrive. *)
Inductive FetchOutcome : Type :=
| Rejected (message : string)
| Response (status : N) (text : string).

(** [response.ok]. *)
Definition ok (status : N) : bool := (N.leb 200 status && N.leb status 299)%bool.

(** ** The component *)

Section Page.
Context {platform : Platform}.

(** Lines 22-26: [xParam ? parseFloat(xParam) : null]. *)
Definition fromQuery (param : option string) : option number :=
  match param with
  | Some s => if string_truthy s then Some (parseFloat s) else None
  | None => None
  end.

Definition latFromQuery (p : Props) : option number := fromQuery (latParam p).
Definition lngFromQuery (p : Props) : option number := fromQuery (lngParam p).

(** ToBoolean on [number | null]. *)
Definition truthy (x : option number) : bool :=
  match x with
  | Some n => number_truthy n
  | None => false
  end.

(** Lines 28-30: the initial value of [selectedLocation]. *)
Definition initialSelectedLocation (p : Props) : option Coord :=
  match latFromQuery p, lngFromQuery p with
  | Some la, Some ln =>
      if (number_truthy la && number_truthy ln)%bool
      then Some {| lat := la; lng := ln |}
      else None
  | _, _ => None
  end.

(** Lines 28-39: the state of the first render. *)
Definition initialState (p : Props) : State :=
  {| selectedLocation := initialSelectedLocation p;
     description := "";
     submitMessage := "";
     submitting := false;
     searchQuery := "";
     suggestions := [];
     isClient := false;
     rating := 0;
     hoverRating := 0 |}.

(** Lines 45-62: the geolocation effect, run after the first render. *)
Definition geolocationEffect (p : Props) : list Effect :=
  if (negb (truthy (latFromQuery p)) && negb (truthy (lngFromQuery p)))%bool then
    if geolocation_in_navigator p then [GetCurrentPosition true] else []
  else [].

(** Lines 49-54: the success callback of the geolocation request. *)
Definition onPosition (coords : Coord) (st : State) : State :=
  setSelectedLocation (Some {| lat := lat coords; lng := lng coords |}) st.

(** Lines 55-57: the error callback of the geolocation request. *)
Definition onPositionError (st : State) : State * list Effect :=
  (st, [Console warn "Geolocation error:"]).

(** Line 67: the address of the geocoding search. *)
Definition searchUrl (q : string) : string :=
  "https://nominatim.openstreetmap.org/search?format=json&q="
  ++ encodeURIComponent q ++ "&countrycodes=in".

Definition searchRequest (q : string) : Request :=
  {| url := searchUrl q; method := "GET"; headers := []; body := None |}.

(** Lines 65-76: the callback of the debounce timer, closed over the
    query of the render that scheduled it. *)
Definition onDebounce (q : string) (st : State) : State * list Effect :=
  if (2 <? String.length q)%nat then (st, [Fetch (searchRequest q)])
  else (setSuggestions [] st, []).

(** Lines 68-72: the search promise settles; [None] stands for a rejected
    [fetch] or [res.json()]. *)
Definition onSearchSettled (data : option (list Place.t)) (st : State) : State :=
  match data with
  | Some places => setSuggestions places st
  | None => setSuggestions [] st
  end.

(** Lines 81-85. *)
Definition handleSuggestionClick (place : Place.t) (st : State) : State :=
  setSuggestions []
    (setSearchQuery (Place.display_name place)
       (setSelectedLocation
          (Some {| lat := parseFloat (Place.lat place);
                   lng := parseFloat (Place.lon place) |}) st)).

(** Lines 87-92. *)
Definition handleSearchSubmit (st : State) : State :=
  match suggestions st with
  | first :: _ => handleSuggestionClick first st
  | [] => st
  end.

Definition validationMessage : string :=
  "Please fill all fields and select location and rating.".

Definition successMessage : string := "Report submitted successfully!".

Definition failurePrefix : string := "Failed to submit report. ".

Definition submitUrl : string := "https://yashdb18-hersafety.hf.space/app/save_review".

(** Lines 100-106: the object handed to [JSON.stringify]. *)
Definition reportBody (uid : string) (desc : string) (loc : Coord) (r : Z) : json :=
  JObj [ ("userid", JStr uid);
         ("description", JStr desc);
         ("latt", JNum (lat loc));
         ("long", JNum (lng loc));
         ("rating", JNum (number_of_Z r)) ].

(** Lines 115-121. *)
Definition submitRequest (b : json) : Request :=
  {| url := submitUrl;
     method := "POST";
     headers := [("Content-Type", "application/json")];
     body := Some (JSON_stringify b) |}.

Definition is_none {A : Type} (o : option A) : bool :=
  match o with None => true | Some _ => false end.

(** Lines 94-121: [handleSubmit] up to its first [await]. *)
Definition handleSubmit (uid : string) (st : State) : State * list Effect :=
  if (negb (string_truthy (description st))
      || is_none (selectedLocation st)
      || (rating st =? 0))%bool
  then (setSubmitMessage validationMessage st, [])
  else
    match selectedLocation st with
    | Some loc =>
        let b := reportBody uid (description st) loc (rating st) in
        (setSubmitMessage "" (setSubmitting true st),
         [Console log "Submitting data:"; Fetch (submitRequest b)])
    | None => (st, [])  (* excluded by the guard above *)
    end.

(** Lines 124-131: the parsed payload, and whether the parse error was
    logged. *)
Definition parseResponse (textResponse : string) : json * list Effect :=
  if string_truthy textResponse then
    match JSON_parse textResponse with
    | Some data => (data, [])
    | None => (JObj [("status", JStr textResponse)],
               [Console error "JSON parse error:"])
    end
  else (JObj [], []).

(** [data.message]: undefined ([None]) when there is no such property,
    a TypeError when [data] is [null]. *)
Definition data_message (data : json) : completion (option json) :=
  match data with
  | JNull => Throw (null_property_message "message")
  | JObj fields => Normal (get_field "message" fields)
  | JBool _ | JNum _ | JStr _ | JArr _ => Normal None
  end.

Definition httpErrorMessage (status : N) : string :=
  "HTTP error! status: " ++ N_to_string status.

(** Line 139: the message of
    [new Error(data.message || `HTTP error! status: ${response.status}`)]. *)
Definition errorMessage (data : json) (status : N) : completion string :=
  m <- data_message data ;;
  match m with
  | Some v => if json_truthy v then ToString v else Normal (httpErrorMessage status)
  | None => Normal (httpErrorMessage status)
  end.

(** Lines 115-140: the body of the [try] after the request was sent; it
    completes normally or throws, and logs on the way. *)
Definition awaitResponse (r : FetchOutcome) : completion unit * list Effect :=
  match r with
  | Rejected msg => (Throw msg, [])
  | Response status textResponse =>
      let '(data, logged) := parseResponse textResponse in
      let logged := (logged ++ [Console log "API Response:"])%list in
      if negb (ok status) then
        match errorMessage data status with
        | Normal msg => (Throw msg, logged)
        | Throw msg => (Throw msg, logged)
        end
      else (Normal tt, logged)
  end.

(** Lines 123-152: [handleSubmit] from the moment its request settles.
    The setters write into the state of that moment. *)
Definition handleSubmit_settled (r : FetchOutcome) (st : State) : State * list Effect :=
  let '(result, logged) := awaitResponse r in
  match result with
  | Normal _ =>
      (setSubmitting false
         (setSelectedLocation None
            (setRating 0
               (setDescription ""
                  (setSubmitMessage successMessage st)))),
       logged)
  | Throw msg =>
      (setSubmitting false (setSubmitMessage (failurePrefix ++ msg) st),
       (logged ++ [Console error "Submission error:"])%list)
  end.

(** Line 225: the values of the ten rating buttons. *)
Definition ratingButtons : list Z := [1; 2; 3; 4; 5; 6; 7; 8; 9; 10].

(** Lines 262-266: the status line and its colour. *)
Definition statusLineShown (st : State) : bool := string_truthy (submitMessage st).

Definition statusLineClass (st : State) : string :=
  if includes "Failed" (submitMessage st) then "text-red-500" else "text-green-500".

End Page.

(** ** The event loop

    The mounted component together with what React and the browser keep
    for it: the props of the render and the pending debounce timer (the
    time left before it fires and the query its callback closed over). *)

Record Machine : Type := {
  props : Props;
  page : State;
  timer : option (nat * string)
}.

Inductive Event : Type :=
| SearchInput (value : string)           (* onChange of the search box *)
| SearchSubmit                           (* onSubmit of the search form *)
| SuggestionClick (idx : nat)            (* onClick of the idx-th suggestion *)
| MapSelect (loc : Coord)                (* onLocationSelect of the map *)
| DescriptionInput (value : string)      (* onChange of the textarea *)
| RatingClick (num : Z)                  (* onClick of a rating button *)
| RatingMouseEnter (num : Z)
| RatingMouseLeave
| SubmitClick                            (* onClick of the submit button *)
| Elapse (ms : nat)                      (* time passes *)
| PositionFound (coords : Coord)         (* geolocation success callback *)
| PositionFailed                         (* geolocation error callback *)
| SearchSettled (data : option (list Place.t))
| SubmitSettled (r : FetchOutcome).

Definition debounceDelay : nat := 300.

Section EventLoop.
Context {platform : Platform}.

(** After a render React re-runs the debounce effect (lines 64-79) when
    [searchQuery] changed: the cleanup clears the pending timer and a new
    one is set.  A state update that leaves [searchQuery] as it was leaves
    the timer alone. *)
Definition commit (m : Machine) (st' : State) : Machine :=
  {| props := props m;
     page := st';
     timer := if String.eqb (searchQuery st') (searchQuery (page m))
              then timer m
              else Some (debounceDelay, searchQuery st') |}.

(** The first render and its effects (lines 41-43, 45-62, 64-79). *)
Definition mount (p : Props) : Machine * list Effect :=
  ({| props := p;
      page := setIsClient true (initialState p);
      timer := Some (debounceDelay, searchQuery (initialState p)) |},
   geolocationEffect p).

(** Time passing: the pending timer fires once its delay has run out. *)
Definition elapse (ms : nat) (m : Machine) : Machine * list Effect :=
  match timer m with
  | Some (remaining, q) =>
      if (remaining <=? ms)%nat then
        let '(st', effs) := onDebounce q (page m) in
        ({| props := props m; page := st'; timer := None |}, effs)
      else
        ({| props := props m; page := page m; timer := Some ((remaining - ms)%nat, q) |}, [])
  | None => (m, [])
  end.

Definition step (m : Machine) (e : Event) : Machine * list Effect :=
  let st := page m in
  match e with
  | SearchInput value => (commit m (setSearchQuery value st), [])
  | SearchSubmit => (commit m (handleSearchSubmit st), [])
  | SuggestionClick idx =>
      match nth_error (suggestions st) idx with
      | Some place => (commit m (handleSuggestionClick place st), [])
      | None => (m, [])
      end
  | MapSelect loc => (commit m (setSelectedLocation (Some loc) st), [])
  | DescriptionInput value => (commit m (setDescription value st), [])
  | RatingClick num =>
      if existsb (Z.eqb num) ratingButtons
      then (commit m (setRating num st), [])
      else (m, [])
  | RatingMouseEnter num =>
      if existsb (Z.eqb num) ratingButtons
      then (commit m (setHoverRating num st), [])
      else (m, [])
  | RatingMouseLeave => (commit m (setHoverRating 0 st), [])
  | SubmitClick =>
      if submitting st then (m, [])       (* the button is disabled *)
      else let '(st', effs) := handleSubmit (userId (props m)) st in
           (commit m st', effs)
  | Elapse ms => elapse ms m
  | PositionFound coords => (commit m (onPosition coords st), [])
  | PositionFailed =>
      let '(st', effs) := onPositionError st in (commit m st', effs)
  | SearchSettled data => (commit m (onSearchSettled data st), [])
  | SubmitSettled r =>
      let '(st', effs) := handleSubmit_settled r st in (commit m st', effs)
  end.

(** A run of the machine, with the effects it requested in order. *)
Fixpoint run (m : Machine) (events : list Event) : Machine * list Effect :=
  match events with
  | [] => (m, [])
  | e :: rest =>
      let '(m1, effs1) := step m e in
      let '(m2, effs2) := run m1 rest in
      (m2, (effs1 ++ effs2)%list)
  end.

(** The machines a mounted page can be in. *)
Definition reachable (m : Machine) : Prop :=
  exists (p : Props) (events : list Event), m = fst (run (fst (mount p)) events).

End EventLoop.

(** ** A reference platform

    An executable instance of [Platform], after ECMA-262 and the URL and
    Fetch standards, on texts whose code units are below 256. *)

Module Reference.

Definition code (c : ascii) : N := N_of_ascii c.

Definition is_digit (c : ascii) : bool := (N.leb 48 (code c) && N.leb (code c) 57)%bool.

Definition digit_value (c : ascii) : Z := Z.of_N (code c) - 48.

Definition digits_value (ds : list ascii) : Z :=
  fold_left (fun acc d => 10 * acc + digit_value d) ds 0.

(** The longest prefix whose characters satisfy [p], and the rest. *)
Fixpoint span (p : ascii -> bool) (s : list ascii) : list ascii * list ascii :=
  match s with
  | c :: rest =>
      if p c then let '(taken, left_over) := span p rest in (c :: taken, left_over)
      else ([], s)
  | [] => ([], [])
  end.

Fixpoint starts_with (pre s : list ascii) : bool :=
  match pre, s with
  | [], _ => true
  | a :: pre', b :: s' => (Ascii.eqb a b && starts_with pre' s')%bool
  | _ :: _, [] => false
  end.

(** The binary64 value nearest to [m * 10^e10] (ties to even), with the
    sign [neg].  Magnitudes far outside the range of binary64 are settled
    without computing the power. *)
Definition decimal_to_number (neg : bool) (m : Z) (e10 : Z) : number :=
  match m with
  | Zpos p =>
      if 400 <? e10 then S754_infinity neg
      else if e10 + Z.log2 m / 3 + 1 <? -400 then S754_zero neg
      else if 0 <=? e10 then binary_round prec emax neg (Z.to_pos (m * 10 ^ e10)) 0
      else SFdiv prec emax (S754_finite neg p 0)
                           (S754_finite false (Z.to_pos (10 ^ (- e10))) 0)
  | _ => S754_zero neg
  end.

(** StrWhiteSpaceChar, among the code units below 256. *)
Definition is_space (c : ascii) : bool :=
  match code c with
  | 9 | 10 | 11 | 12 | 13 | 32 | 160 => true
  | _ => false
  end%N.

Fixpoint trim_start (s : list ascii) : list ascii :=
  match s with
  | c :: rest => if is_space c then trim_start rest else s
  | [] => []
  end.

Definition split_sign (s : list ascii) : bool * list ascii :=
  match s with
  | c :: rest =>
      if Ascii.eqb c "-" then (true, rest)
      else if Ascii.eqb c "+" then (false, rest)
      else (false, s)
  | [] => (false, [])
  end.

(** The value of an ExponentPart at the head of [s]; 0 when there is no
    complete one. *)
Definition exponent_part (s : list ascii) : Z :=
  match s with
  | c :: rest =>
      if (Ascii.eqb c "e" || Ascii.eqb c "E")%bool then
        let '(neg, rest') := split_sign rest in
        match fst (span is_digit rest') with
        | [] => 0
        | ds => if neg then - digits_value ds else digits_value ds
        end
      else 0
  | [] => 0
  end.

(** [parseFloat]: the longest prefix of the trimmed text that is a
    StrDecimalLiteral, or NaN. *)
Definition parseFloat (s : string) : number :=
  let '(neg, t) := split_sign (trim_start (list_ascii_of_string s)) in
  if starts_with (list_ascii_of_string "Infinity") t then S754_infinity neg
  else
    let '(ip, r1) := span is_digit t in
    let '(fp, r2) :=
      match r1 with
      | c :: r => if Ascii.eqb c "." then span is_digit r else ([], r1)
      | [] => ([], r1)
      end in
    match (ip ++ fp)%list with
    | [] => S754_nan
    | ds => decimal_to_number neg (digits_value ds)
              (exponent_part r2 - Z.of_nat (List.length fp))
    end.

(** *** Number::toString *)

(** [m * 2^e] as a fraction. *)
Definition numerator (m : positive) (e : Z) (p10 : Z) : Z :=
  Zpos m * 2 ^ Z.max e 0 * 10 ^ Z.max (- p10) 0.

Definition denominator (e : Z) (p10 : Z) : Z :=
  2 ^ Z.max (- e) 0 * 10 ^ Z.max p10 0.

(** [10^k <= m * 2^e]. *)
Definition ge_pow10 (m : positive) (e : Z) (k : Z) : bool :=
  denominator e k <=? numerator m e k.

(** The [k] with [10^k <= m * 2^e < 10^(k+1)]. *)
Definition floor_log10 (m : positive) (e : Z) : Z :=
  let est := (Zpos (digits2_pos m) + e - 1) * 30103 / 100000 in
  if ge_pow10 m e (est + 2) then est + 2
  else if ge_pow10 m e (est + 1) then est + 1
  else if ge_pow10 m e est then est
  else if ge_pow10 m e (est - 1) then est - 1
  else est - 2.

Definition same_finite (x : number) (m : positive) (e : Z) : bool :=
  match x with
  | S754_finite false m' e' => (Pos.eqb m m' && Z.eqb e e')%bool
  | _ => false
  end.

(** The shortest decimal [s * 10^p] that reads back as [m * 2^e], the
    closest one when several have that many digits; [k] counts the digits
    tried so far and [n - 1] is [floor_log10]. *)
Fixpoint shortest (fuel : nat) (k : Z) (m : positive) (e : Z) (n : Z) : Z * Z :=
  match fuel with
  | O => (0, 0)
  | S fuel' =>
      let p := n - k in
      let num := numerator m e p in
      let den := denominator e p in
      let lo := num / den in
      let hi := lo + 1 in
      let lo_ok := same_finite (decimal_to_number false lo p) m e in
      let hi_ok := same_finite (decimal_to_number false hi p) m e in
      if (lo_ok && hi_ok)%bool then
        match 2 * num ?= (2 * lo + 1) * den with
        | Lt => (lo, p)
        | Gt => (hi, p)
        | Eq => if Z.even lo then (lo, p) else (hi, p)
        end
      else if lo_ok then (lo, p)
      else if hi_ok then (hi, p)
      else shortest fuel' (k + 1) m e n
  end.

Fixpoint strip_zeros (fuel : nat) (s p : Z) : Z * Z :=
  match fuel with
  | O => (s, p)
  | S fuel' => if (0 <? s) && (s mod 10 =? 0) then strip_zeros fuel' (s / 10) (p + 1) else (s, p)
  end%bool.

Fixpoint zeros (n : nat) : string :=
  match n with
  | O => ""
  | S n' => String "0" (zeros n')
  end.

Definition Z_to_string (z : Z) : string :=
  match z with
  | Zneg p => "-" ++ N_to_string (Npos p)
  | _ => N_to_string (Z.to_N z)
  end.

(** The text of the positive number with digits [ds] and decimal point
    after the [n]-th digit. *)
Definition layout (ds : string) (n : Z) : string :=
  let k := Z.of_nat (String.length ds) in
  if (k <=? n) && (n <=? 21) then ds ++ zeros (Z.to_nat (n - k))
  else if (0 <? n) && (n <=? 21) then
    substring 0 (Z.to_nat n) ds ++ "." ++ substring (Z.to_nat n) (Z.to_nat (k - n)) ds
  else if (-6 <? n) && (n <=? 0) then "0." ++ zeros (Z.to_nat (- n)) ++ ds
  else
    let ex := (if n - 1 <? 0 then "-" else "+") ++ Z_to_string (Z.abs (n - 1)) in
    if k =? 1 then ds ++ "e" ++ ex
    else substring 0 1 ds ++ "." ++ substring 1 (Z.to_nat (k - 1)) ds ++ "e" ++ ex.

Definition Number_toString (x : number) : string :=
  match x with
  | S754_nan => "NaN"
  | S754_zero _ => "0"
  | S754_infinity neg => if neg then "-Infinity" else "Infinity"
  | S754_finite neg m0 e0 =>
      match binary_round prec emax false m0 e0 with
      | S754_finite _ m e =>
          let '(s, p) := shortest 17 1 m e (floor_log10 m e + 1) in
          let '(s, p) := strip_zeros 400 s p in
          let ds := Z_to_string s in
          (if neg then "-" else "") ++ layout ds (Z.of_nat (String.length ds) + p)
      | S754_infinity _ => if neg then "-Infinity" else "Infinity"
      | _ => "0"
      end
  end.

(** *** JSON.parse *)

Definition quote : ascii := ascii_of_N 34.
Definition backslash : ascii := ascii_of_N 92.

Definition is_json_space (c : ascii) : bool :=
  match code c with
  | 9 | 10 | 13 | 32 => true
  | _ => false
  end%N.

Fixpoint skip_space (s : list ascii) : list ascii :=
  match s with
  | c :: rest => if is_json_space c then skip_space rest else s
  | [] => []
  end.

Definition hex_value (c : ascii) : option N :=
  let n := code c in
  if (N.leb 48 n && N.leb n 57)%bool then Some (n - 48)%N
  else if (N.leb 65 n && N.leb n 70)%bool then Some (n - 55)%N
  else if (N.leb 97 n && N.leb n 102)%bool then Some (n - 87)%N
  else None.

(** What stands for a code unit that the model's texts cannot hold. *)
Definition substitute : ascii := "?".

(** The code unit written [\uXXXX]: any four hexadecimal digits are
    accepted, as [JSON.parse] does.  A code unit of 256 or more lies
    outside the alphabet of the model's texts and is carried as
    [substitute], so that the parsed value keeps its shape and every text
    its length. *)
Definition unicode_escape (a b c d : ascii) : option ascii :=
  match hex_value a, hex_value b, hex_value c, hex_value d with
  | Some h3, Some h2, Some h1, Some h0 =>
      let unit := (4096 * h3 + 256 * h2 + 16 * h1 + h0)%N in
      Some (if N.ltb unit 256 then ascii_of_N unit else substitute)
  | _, _, _, _ => None
  end.

Definition simple_escape (c : ascii) : option ascii :=
  match code c with
  | 34 => Some quote
  | 92 => Some backslash
  | 47 => Some "/"%char
  | 98 => Some (ascii_of_N 8)
  | 102 => Some (ascii_of_N 12)
  | 110 => Some (ascii_of_N 10)
  | 114 => Some (ascii_of_N 13)
  | 116 => Some (ascii_of_N 9)
  | _ => None
  end%N.

(** The characters of a string literal after its opening quote, up to the
    closing one; [acc] holds what was read, last character first. *)
Fixpoint string_chars (s : list ascii) (acc : list ascii) : option (string * list ascii) :=
  match s with
  | [] => None
  | c :: rest =>
      if Ascii.eqb c quote then Some (string_of_list_ascii (rev acc), rest)
      else if Ascii.eqb c backslash then
        match rest with
        | e :: rest' =>
            if Ascii.eqb e "u" then
              match rest' with
              | h1 :: h2 :: h3 :: h4 :: rest'' =>
                  match unicode_escape h1 h2 h3 h4 with
                  | Some u => string_chars rest'' (u :: acc)
                  | None => None
                  end
              | _ => None
              end
            else
              match simple_escape e with
              | Some u => string_chars rest' (u :: acc)
              | None => None
              end
        | [] => None
        end
      else if N.ltb (code c) 32 then None
      else string_chars rest (c :: acc)
  end.

(** A JSON number at the head of [s]. *)
Definition number_literal (s : list ascii) : option (number * list ascii) :=
  let '(neg, s1) :=
    match s with
    | c :: rest => if Ascii.eqb c "-" then (true, rest) else (false, s)
    | [] => (false, s)
    end in
  let '(ip, s2) := span is_digit s1 in
  let int_ok :=
    match ip with
    | [] => false
    | d :: more => (negb (Ascii.eqb d "0") || Nat.eqb (List.length more) 0)%bool
    end in
  let frac :=
    match s2 with
    | c :: rest =>
        if Ascii.eqb c "." then
          match span is_digit rest with
          | ([], _) => None
          | (fp, s3) => Some (fp, s3)
          end
        else Some ([], s2)
    | [] => Some ([], s2)
    end in
  match frac with
  | Some (fp, s3) =>
      let expo :=
        match s3 with
        | c :: rest =>
            if (Ascii.eqb c "e" || Ascii.eqb c "E")%bool then
              let '(eneg, rest') := split_sign rest in
              match span is_digit rest' with
              | ([], _) => None
              | (ds, s4) => Some (if eneg then - digits_value ds else digits_value ds, s4)
              end
            else Some (0, s3)
        | [] => Some (0, s3)
        end in
      match expo with
      | Some (ex, s4) =>
          if int_ok
          then Some (decimal_to_number neg (digits_value (ip ++ fp))
                       (ex - Z.of_nat (List.length fp)), s4)
          else None
      | None => None
      end
  | None => None
  end.

Definition keyword (word : string) (v : json) (s : list ascii) : option (json * list ascii) :=
  let w := list_ascii_of_string word in
  if starts_with w s then Some (v, skipn (List.length w) s) else None.

(** A value at the head of [s] and the text after it; the elements of an
    array after its opening bracket; the members of an object after its
    opening brace. *)
Fixpoint value (fuel : nat) (s : list ascii) {struct fuel} : option (json * list ascii) :=
  match fuel with
  | O => None
  | S fuel' =>
      match skip_space s with
      | [] => None
      | c :: rest =>
          if Ascii.eqb c "{" then
            match skip_space rest with
            | c' :: rest' =>
                if Ascii.eqb c' "}" then Some (JObj [], rest') else members fuel' rest []
            | [] => None
            end
          else if Ascii.eqb c "[" then
            match skip_space rest with
            | c' :: rest' =>
                if Ascii.eqb c' "]" then Some (JArr [], rest') else elements fuel' rest []
            | [] => None
            end
          else if Ascii.eqb c quote then
            match string_chars rest [] with
            | Some (str, rest') => Some (JStr str, rest')
            | None => None
            end
          else if Ascii.eqb c "t" then keyword "true" (JBool true) (c :: rest)
          else if Ascii.eqb c "f" then keyword "false" (JBool false) (c :: rest)
          else if Ascii.eqb c "n" then keyword "null" JNull (c :: rest)
          else
            match number_literal (c :: rest) with
            | Some (n, rest') => Some (JNum n, rest')
            | None => None
            end
      end
  end
with elements (fuel : nat) (s : list ascii) (acc : list json) {struct fuel}
  : option (json * list ascii) :=
  match fuel with
  | O => None
  | S fuel' =>
      match value fuel' s with
      | Some (v, rest) =>
          match skip_space rest with
          | c :: rest' =>
              if Ascii.eqb c "," then elements fuel' rest' (v :: acc)
              else if Ascii.eqb c "]" then Some (JArr (rev (v :: acc)), rest')
              else None
          | [] => None
          end
      | None => None
      end
  end
with members (fuel : nat) (s : list ascii) (acc : list (string * json)) {struct fuel}
  : option (json * list ascii) :=
  match fuel with
  | O => None
  | S fuel' =>
      match skip_space s with
      | c :: rest =>
          if Ascii.eqb c quote then
            match string_chars rest [] with
            | Some (key, rest1) =>
                match skip_space rest1 with
                | c1 :: rest2 =>
                    if Ascii.eqb c1 ":" then
                      match value fuel' rest2 with
                      | Some (v, rest3) =>
                          match skip_space rest3 with
                          | c2 :: rest4 =>
                              if Ascii.eqb c2 "," then members fuel' rest4 ((key, v) :: acc)
                              else if Ascii.eqb c2 "}"
                              then Some (JObj (rev ((key, v) :: acc)), rest4)
                              else None
                          | [] => None
                          end
                      | None => None
                      end
                    else None
                | [] => None
                end
            | None => None
            end
          else None
      | [] => None
      end
  end.

Definition JSON_parse (text : string) : option json :=
  let s := list_ascii_of_string text in
  match value (2 * List.length s + 4) s with
  | Some (v, rest) =>
      match skip_space rest with
      | [] => Some v
      | _ :: _ => None
      end
  | None => None
  end.

(** *** JSON.stringify *)

Definition hex_digit (upper : bool) (n : N) : ascii :=
  if N.ltb n 10 then ascii_of_N (48 + n)
  else ascii_of_N ((if upper then 55 else 87) + n).

(** QuoteJSONString, one code unit at a time. *)
Definition quote_unit (c : ascii) : string :=
  match code c with
  | 8 => String backslash "b"
  | 9 => String backslash "t"
  | 10 => String backslash "n"
  | 12 => String backslash "f"
  | 13 => String backslash "r"
  | 34 => String backslash (String quote "")
  | 92 => String backslash (String backslash "")
  | n => if N.ltb n 32
         then String backslash "u00"
              ++ String (hex_digit false (n / 16)) (String (hex_digit false (n mod 16)) "")
         else String c ""
  end%N.

Fixpoint quote_units (s : string) : string :=
  match s with
  | EmptyString => ""
  | String c rest => quote_unit c ++ quote_units rest
  end.

Definition quote_string (s : string) : string :=
  String quote (quote_units s ++ String quote "").

Fixpoint join (sep : string) (parts : list string) : string :=
  match parts with
  | [] => ""
  | [x] => x
  | x :: rest => x ++ sep ++ join sep rest
  end.

Fixpoint JSON_stringify (v : json) : string :=
  match v with
  | JNull => "null"
  | JBool true => "true"
  | JBool false => "false"
  | JNum (S754_nan | S754_infinity _) => "null"
  | JNum n => Number_toString n
  | JStr s => quote_string s
  | JArr items => "[" ++ join "," (map JSON_stringify items) ++ "]"
  | JObj fields =>
      "{" ++ join "," (map (fun kv => quote_string (fst kv) ++ ":" ++ JSON_stringify (snd kv))
                           fields) ++ "}"
  end.

(** The text of a number inside a JSON text. *)
Definition number_text (n : number) : string := JSON_stringify (JNum n).

(** *** ToString *)

Definition has_key (key : string) (fields : list (string * json)) : bool :=
  existsb (fun kv => String.eqb (fst kv) key) fields.

Definition not_primitive_message : string := "Cannot convert object to primitive value".

(** ToString of a parsed value.  An array is joined with commas, [null]
    elements giving the empty text; a plain object prints as
    [[object Object]], unless an own [toString] property hides the
    inherited method, which is a TypeError. *)
Fixpoint ToString (v : json) : completion string :=
  match v with
  | JNull => Normal "null"
  | JBool true => Normal "true"
  | JBool false => Normal "false"
  | JNum n => Normal (Number_toString n)
  | JStr s => Normal s
  | JArr items =>
      (fix joined (l : list json) : completion string :=
         match l with
         | [] => Normal ""
         | x :: rest =>
             sx <- match x with JNull => Normal "" | _ => ToString x end ;;
             match rest with
             | [] => Normal sx
             | _ :: _ => sr <- joined rest ;; Normal (sx ++ "," ++ sr)
             end
         end) items
  | JObj fields =>
      if has_key "toString" fields then Throw not_primitive_message
      else Normal "[object Object]"
  end.

(** *** encodeURIComponent *)

Definition unreserved (c : ascii) : bool :=
  let n := code c in
  ((N.leb 48 n && N.leb n 57) || (N.leb 65 n && N.leb n 90) || (N.leb 97 n && N.leb n 122)
   || existsb (Ascii.eqb c) (list_ascii_of_string "-_.!~*'()"))%bool.

Definition percent (byte : N) : string :=
  String "%" (String (hex_digit true (byte / 16)) (String (hex_digit true (byte mod 16)) "")).

(** A code unit below 128 is one UTF-8 byte, one from 128 to 255 is two. *)
Definition encode_unit (c : ascii) : string :=
  let n := code c in
  if unreserved c then String c ""
  else if N.ltb n 128 then percent n
  else (percent (192 + n / 64) ++ percent (128 + n mod 64))%N.

Fixpoint encodeURIComponent (s : string) : string :=
  match s with
  | EmptyString => ""
  | String c rest => encode_unit c ++ encodeURIComponent rest
  end.

Definition null_property_message (property : string) : string :=
  "Cannot read properties of null (reading '" ++ property ++ "')".

#[global] Instance platform : Platform :=
  Build_Platform parseFloat encodeURIComponent JSON_parse JSON_stringify
                 ToString (fun s => eq_refl) null_property_message.

(** Writes a text with apostrophes for its double quotes. *)
Fixpoint dq (s : string) : string :=
  match s with
  | EmptyString => ""
  | String c rest => String (if Ascii.eqb c "'" then quote else c) (dq rest)
  end.

End Reference.

(** ** Sample sessions on the reference platform *)

Module Sample.

(** A visitor with no coordinate in the address. *)
Definition visitor : Props :=
  {| userId := "u1"; latParam := None; lngParam := None;
     geolocation_in_navigator := true |}.

(** The same in a browser without geolocation. *)
Definition visitor_without_geolocation : Props :=
  {| userId := "u1"; latParam := None; lngParam := None;
     geolocation_in_navigator := false |}.

(** [?lat=0&lng=0]. *)
Definition visitor_at_origin : Props :=
  {| userId := "u1"; latParam := Some "0"; lngParam := Some "0";
     geolocation_in_navigator := true |}.

(** [?lat=0&lng=72.87]: a point on the equator. *)
Definition visitor_on_equator : Props :=
  {| userId := "u1"; latParam := Some "0"; lngParam := Some "72.87";
     geolocation_in_navigator := true |}.

(** [?lat=19.07]. *)
Definition visitor_with_latitude_only : Props :=
  {| userId := "u1"; latParam := Some "19.07"; lngParam := None;
     geolocation_in_navigator := true |}.

(** [?lat=19.07&lng=72.87]. *)
Definition visitor_with_coordinate : Props :=
  {| userId := "u1"; latParam := Some "19.07"; lngParam := Some "72.87";
     geolocation_in_navigator := true |}.

Definition pothole : Coord :=
  {| lat := Reference.parseFloat "19.07"; lng := Reference.parseFloat "72.87" |}.

(** The page after the visitor filled the form. *)
Definition drafted : Machine :=
  fst (run (fst (mount visitor))
         [DescriptionInput "Pothole here"; MapSelect pothole; RatingClick 7]).

(** ... and pressed the submit button. *)
Definition submitted : Machine := fst (step drafted SubmitClick).

Definition mumbai : Place.t :=
  {| Place.lat := "19.0760"; Place.lon := "72.8777";
     Place.display_name := "Mumbai, Maharashtra, India" |}.

(** The page after a search for "mum" brought one suggestion. *)
Definition listed : Machine :=
  fst (run (fst (mount visitor))
         [SearchInput "mum"; Elapse 300; SearchSettled (Some [mumbai])]).

End Sample.

(** ** Vocabulary of the properties *)

(** The rating is 0 (none chosen) or one of the ten buttons' values. *)
Definition rating_on_scale (st : State) : Prop := 0 <= rating st <= 10.

(** What a submission has no business with: the search box, the
    suggestions, the hover preview, the client flag, the props (the user
    identifier among them) and the debounce timer are the same in [a] and
    [b]. *)
Definition same_outside_submission (a b : Machine) : Prop :=
  searchQuery (page b) = searchQuery (page a)
  /\ suggestions (page b) = suggestions (page a)
  /\ hoverRating (page b) = hoverRating (page a)
  /\ isClient (page b) = isClient (page a)
  /\ userId (props b) = userId (props a)
  /\ props b = props a
  /\ timer b = timer a.

(** ** The rest of the view *)

(** Line 233: [hoverRating || rating], the value the buttons light up to. *)
Definition activeRating (st : State) : Z :=
  if hoverRating st =? 0 then rating st else hoverRating st.

(** Line 233: whether the button [num] is lit,
    [(hoverRating || rating) >= num]. *)
Definition ratingHighlighted (st : State) (num : Z) : bool := activeRating st >=? num.

(** What React puts in the place of [{a && b && <div/>}]: nothing for
    [null], the number itself for a falsy number (0 or NaN), the element
    otherwise. *)
Inductive Slot : Type :=
| Nothing
| NumberText (n : number)
| QueryBanner (latitude longitude : number).

Section View.
Context {platform : Platform}.

(** Lines 163-169: the "From URL Query" line. *)
Definition queryBanner (p : Props) : Slot :=
  match latFromQuery p with
  | None => Nothing
  | Some la =>
      if number_truthy la then
        match lngFromQuery p with
        | None => Nothing
        | Some ln => if number_truthy ln then QueryBanner la ln else NumberText ln
        end
      else NumberText la
  end.

End View.

(** ** Counting what a run does *)

Definition is_post (r : Request) : bool := String.eqb (method r) "POST".
Definition is_get (r : Request) : bool := String.eqb (method r) "GET".

(** The submissions and the searches among the effects. *)
Definition submissions (effs : list Effect) : list Request :=
  filter is_post (network_calls effs).

Definition searches (effs : list Effect) : list Request :=
  filter is_get (network_calls effs).

Definition is_settlement (e : Event) : bool :=
  match e with SubmitSettled _ => true | _ => false end.

(** The events whose handlers call [setSearchQuery]. *)
Definition writes_query (e : Event) : bool :=
  match e with
  | SearchInput _ | SearchSubmit | SuggestionClick _ => true
  | _ => false
  end.

(** A submission that did not succeed. *)
Definition failed (r : FetchOutcome) : bool :=
  match r with
  | Rejected _ => true
  | Response status _ => negb (ok status)
  end.

(** 1 when the submit button is enabled. *)
Definition idle (m : Machine) : nat := if submitting (page m) then 0 else 1.

(** 1 when a timer is pending whose callback will search. *)
Definition armed (m : Machine) : nat :=
  match timer m with
  | Some (_, q) => if (2 <? String.length q)%nat then 1 else 0
  | None => 0
  end.

(** The pending timer, if any, was set for the text now in the box and
    has some of its delay left. *)
Definition timer_consistent (m : Machine) : Prop :=
  match timer m with
  | Some (remaining, q) =>
      q = searchQuery (page m) /\ (0 < remaining <= debounceDelay)%nat
  | None => True
  end.

Definition hover_on_scale (st : State) : Prop := 0 <= hoverRating st <= 10.

Module MoreSamples.

(** A suggestion whose coordinates are not numbers. *)
Definition nowhere : Place.t :=
  {| Place.lat := "n/a"; Place.lon := ""; Place.display_name := "Nowhere" |}.

(** The page right after "mum" was typed into the search box. *)
Definition typing : Machine := fst (run (fst (mount Sample.visitor)) [SearchInput "mum"]).

(** A draft with a rating and a description, and [nowhere] in the list. *)
Definition misled : Machine :=
  fst (run (fst (mount Sample.visitor))
         [DescriptionInput "Pothole here"; RatingClick 7;
          SearchSettled (Some [nowhere])]).

(** The page is hovering over button 4 with 7 selected. *)
Definition hovering : Machine :=
  fst (run (fst (mount Sample.visitor)) [RatingClick 7; RatingMouseEnter 4]).

(** [?lat=abc&lng=72.87]. *)
Definition visitor_with_bad_latitude : Props :=
  {| userId := "u1"; latParam := Some "abc"; lngParam := Some "72.87";
     geolocation_in_navigator := true |}.

End MoreSamples.

(** ** The writes of a settled submission, in order *)

(** [Number.isFinite]. *)
Definition number_finite (n : number) : bool :=
  match n with
  | S754_nan | S754_infinity _ => false
  | S754_zero _ | S754_finite _ _ _ => true
  end.

(** A call of one of the state setters that [handleSubmit] uses. *)
Inductive Write : Type :=
| WriteSubmitMessage (v : string)
| WriteDescription (v : string)
| WriteRating (v : Z)
| WriteSelectedLocation (v : option Coord)
| WriteSubmitting (v : bool).


Definition is_submitting_write (w : Write) : bool :=
  match w with WriteSubmitting _ => true | _ => false end.

Section Writes.
Context {platform : Platform}.


End Writes.

(** ** Time passing in several stretches *)

Definition pause (stretches : list nat) : list Event := map Elapse stretches.

(** Keystrokes in the search box: each entry is the stretches of time
    since the previous keystroke and the text the box holds after it. *)
Fixpoint typing_burst (keys : list (list nat * string)) : list Event :=
  match keys with
  | [] => []
  | (stretches, q) :: rest => (pause stretches ++ SearchInput q :: typing_burst rest)%list
  end.

(** Every keystroke comes less than the debounce delay after the one
    before and changes the text of the box. *)
Fixpoint in_quick_succession (previous : string) (keys : list (list nat * string)) : Prop :=
  match keys with
  | [] => True
  | (stretches, q) :: rest =>
      (list_sum stretches < debounceDelay)%nat /\ q <> previous
      /\ in_quick_succession q rest
  end.

Module EdgeSamples.

(** The page as mounted, nothing filled in. *)
Definition fresh : Machine := fst (mount Sample.visitor).

(** [?lat=Infinity&lng=-1e999]. *)
Definition visitor_at_infinity : Props :=
  {| userId := "u1"; latParam := Some "Infinity"; lngParam := Some "-1e999";
     geolocation_in_navigator := true |}.

(** That visitor after writing a description and choosing a rating. *)
Definition unbounded : Machine :=
  fst (run (fst (mount visitor_at_infinity))
         [DescriptionInput "Pothole here"; RatingClick 7]).

Definition keystrokes : list (list nat * string) :=
  [([120], "mumb"); ([100; 50; 100], "mumba"); ([], "mumbai")]%nat.

End EdgeSamples.

(** * Properties *)

Section Properties.
Context {platform : Platform}.

(** ** Bookkeeping *)

Lemma commit_same (m : Machine) : commit m (page m) = m.
Proof.
  destruct m as [p st t]. unfold commit. simpl.
  rewrite String.eqb_refl. reflexivity.
Qed.

Lemma commit_page (m : Machine) (st' : State) : page (commit m st') = st'.
Proof. reflexivity. Qed.

Lemma commit_props (m : Machine) (st' : State) : props (commit m st') = props m.
Proof. reflexivity. Qed.

Lemma commit_timer_kept (m : Machine) (st' : State) :
  searchQuery st' = searchQuery (page m) -> timer (commit m st') = timer m.
Proof.
  intros H. unfold commit. simpl. rewrite H, String.eqb_refl. reflexivity.
Qed.

Lemma commit_timer_reset (m : Machine) (st' : State) :
  searchQuery st' <> searchQuery (page m) ->
  timer (commit m st') = Some (debounceDelay, searchQuery st').
Proof.
  intros H. unfold commit. simpl.
  destruct (String.eqb_spec (searchQuery st') (searchQuery (page m))); congruence.
Qed.

Lemma run_app (m : Machine) (a b : list Event) :
  run m (a ++ b) =
  (fst (run (fst (run m a)) b), (snd (run m a) ++ snd (run (fst (run m a)) b))%list).
Proof.
  revert m. induction a as [|e a IH]; intros m; simpl.
  - destruct (run m b); reflexivity.
  - destruct (step m e) as [m1 effs1]. rewrite IH.
    destruct (run m1 a) as [m2 effs2]. simpl.
    rewrite app_assoc. reflexivity.
Qed.

Lemma run_cons (m : Machine) (e : Event) (rest : list Event) :
  run m (e :: rest) =
  (fst (run (fst (step m e)) rest),
   (snd (step m e) ++ snd (run (fst (step m e)) rest))%list).
Proof.
  simpl. destruct (step m e) as [m1 effs1]. simpl.
  destruct (run m1 rest); reflexivity.
Qed.

Lemma network_calls_app (a b : list Effect) :
  network_calls (a ++ b) = (network_calls a ++ network_calls b)%list.
Proof.
  induction a as [|e a IH]; simpl; [reflexivity|].
  destruct e; simpl; rewrite IH; reflexivity.
Qed.


Lemma string_truthy_true (s : string) : string_truthy s = true <-> s <> "".
Proof. destruct s; simpl; split; congruence. Qed.

(** ** The rating stays on the scale *)

Lemma ratingButtons_range (num : Z) :
  existsb (Z.eqb num) ratingButtons = true -> 1 <= num <= 10.
Proof.
  unfold ratingButtons. simpl. rewrite !orb_true_iff, !Z.eqb_eq. lia.
Qed.

Lemma handleSubmit_rating (uid : string) (st : State) :
  rating (fst (handleSubmit uid st)) = rating st.
Proof.
  unfold handleSubmit.
  destruct (negb (string_truthy (description st)) || is_none (selectedLocation st)
            || (rating st =? 0))%bool; [reflexivity|].
  destruct (selectedLocation st); reflexivity.
Qed.

Lemma handleSubmit_settled_rating (r : FetchOutcome) (st : State) :
  rating (fst (handleSubmit_settled r st)) = rating st \/
  rating (fst (handleSubmit_settled r st)) = 0.
Proof.
  unfold handleSubmit_settled.
  destruct (awaitResponse r) as [[[]|msg] logged]; simpl; auto.
Qed.

Lemma step_rating (m : Machine) (e : Event) :
  rating_on_scale (page m) -> rating_on_scale (page (fst (step m e))).
Proof.
  unfold rating_on_scale. intros H.
  destruct e; unfold step; try (simpl; exact H).
  - unfold handleSearchSubmit. destruct (suggestions (page m)); exact H.
  - destruct (nth_error (suggestions (page m)) idx); exact H.
  - destruct (existsb (Z.eqb num) ratingButtons) eqn:E; [|exact H].
    apply ratingButtons_range in E. simpl. lia.
  - destruct (existsb (Z.eqb num) ratingButtons); exact H.
  - destruct (submitting (page m)); [exact H|].
    pose proof (handleSubmit_rating (userId (props m)) (page m)) as R.
    destruct (handleSubmit (userId (props m)) (page m)) as [st' effs].
    simpl in *. rewrite R. exact H.
  - unfold elapse. destruct (timer m) as [[remaining q]|]; [|exact H].
    destruct (remaining <=? ms)%nat; [|exact H].
    unfold onDebounce. destruct (2 <? String.length q)%nat; exact H.
  - destruct data; exact H.
  - pose proof (handleSubmit_settled_rating r (page m)) as R.
    destruct (handleSubmit_settled r (page m)) as [st' effs].
    simpl in *. destruct R as [R|R]; rewrite R; lia.
Qed.

Lemma run_rating (events : list Event) (m : Machine) :
  rating_on_scale (page m) -> rating_on_scale (page (fst (run m events))).
Proof.
  revert m. induction events as [|e events IH]; intros m H; simpl; [exact H|].
  pose proof (step_rating m e H) as H1.
  destruct (step m e) as [m1 effs1]. simpl in H1.
  specialize (IH m1 H1). destruct (run m1 events) as [m2 effs2]. exact IH.
Qed.

Lemma reachable_rating (m : Machine) : reachable m -> rating_on_scale (page m).
Proof.
  intros [p [events ->]]. apply run_rating.
  unfold rating_on_scale. simpl. lia.
Qed.

(** ** Submitting a report *)

Lemma handleSubmit_invalid (uid : string) (st : State) :
  description st = "" \/ selectedLocation st = None \/ rating st = 0 ->
  handleSubmit uid st = (setSubmitMessage validationMessage st, []).
Proof.
  intros H. unfold handleSubmit.
  replace (negb (string_truthy (description st)) || is_none (selectedLocation st)
           || (rating st =? 0))%bool with true; [reflexivity|].
  symmetry. rewrite !orb_true_iff.
  destruct H as [H|[H|H]]; rewrite H; auto.
Qed.

Lemma handleSubmit_valid (uid : string) (st : State) (loc : Coord) :
  description st <> "" -> selectedLocation st = Some loc -> rating st <> 0 ->
  handleSubmit uid st =
  (setSubmitMessage "" (setSubmitting true st),
   [Console log "Submitting data:";
    Fetch (submitRequest (reportBody uid (description st) loc (rating st)))]).
Proof.
  intros Hd Hl Hr. unfold handleSubmit. rewrite Hl. simpl.
  apply string_truthy_true in Hd. rewrite Hd.
  apply Z.eqb_neq in Hr. rewrite Hr. reflexivity.
Qed.

Lemma handleSubmit_decide (st : State) :
  (description st = "" \/ selectedLocation st = None \/ rating st = 0) \/
  (exists loc, description st <> "" /\ selectedLocation st = Some loc /\ rating st <> 0).
Proof.
  destruct (description st) eqn:D; [auto|].
  destruct (selectedLocation st) as [loc|] eqn:L; [|auto].
  destruct (Z.eq_dec (rating st) 0) as [R|R]; [auto|].
  right. exists loc. repeat split; congruence.
Qed.

Lemma parseResponse_quiet (text : string) : network_calls (snd (parseResponse text)) = [].
Proof.
  unfold parseResponse. destruct (string_truthy text); [|reflexivity].
  destruct (JSON_parse text); reflexivity.
Qed.

Lemma handleSubmit_settled_quiet (r : FetchOutcome) (st : State) :
  network_calls (snd (handleSubmit_settled r st)) = [].
Proof.
  unfold handleSubmit_settled, awaitResponse.
  destruct r as [msg|status text]; [reflexivity|].
  pose proof (parseResponse_quiet text) as Q.
  destruct (parseResponse text) as [data logged]. simpl in Q.
  destruct (negb (ok status)).
  - destruct (errorMessage data status); simpl;
      rewrite !network_calls_app, Q; reflexivity.
  - simpl. rewrite network_calls_app, Q. reflexivity.
Qed.

(** A search request is a GET, the submission a POST. *)
Lemma step_posts (m : Machine) (e : Event) (r : Request) :
  In r (network_calls (snd (step m e))) -> method r = "POST" ->
  e = SubmitClick /\ In r (network_calls (snd (handleSubmit (userId (props m)) (page m)))).
Proof.
  intros Hin Hm. destruct e; unfold step in Hin; try (simpl in Hin; contradiction).
  - destruct (nth_error (suggestions (page m)) idx); simpl in Hin; contradiction.
  - destruct (existsb (Z.eqb num) ratingButtons); simpl in Hin; contradiction.
  - destruct (existsb (Z.eqb num) ratingButtons); simpl in Hin; contradiction.
  - split; [reflexivity|].
    destruct (submitting (page m)); [simpl in Hin; contradiction|].
    destruct (handleSubmit (userId (props m)) (page m)) as [st' effs]. exact Hin.
  - unfold elapse in Hin. destruct (timer m) as [[remaining q]|]; [|simpl in Hin; contradiction].
    destruct (remaining <=? ms)%nat; [|simpl in Hin; contradiction].
    unfold onDebounce in Hin. destruct (2 <? String.length q)%nat; simpl in Hin.
    + destruct Hin as [<-|[]]. discriminate Hm.
    + contradiction.
  - pose proof (handleSubmit_settled_quiet r0 (page m)) as Q.
    destruct (handleSubmit_settled r0 (page m)) as [st' effs]. simpl in *.
    rewrite Q in Hin. contradiction.
Qed.

(** C1.  On a mounted page, whatever happened before: an event makes the
    page send a submission (a POST) only when the description is not
    empty, a coordinate is selected and the rating is between 1 and 10.
    When one of the three fails, [handleSubmit] requests no effect at
    all, so no network call, and the only thing it changes is the status
    message, which becomes "Please fill all fields and select location
    and rating." and is shown; a click on the enabled button does the
    same to the page. *)
Theorem submission_only_when_valid (m : Machine) (Hreach : reachable m) :
  (forall (e : Event) (r : Request),
      In r (network_calls (snd (step m e))) -> method r = "POST" ->
      description (page m) <> "" /\ selectedLocation (page m) <> None
      /\ 1 <= rating (page m) <= 10)
  /\ (description (page m) = "" \/ selectedLocation (page m) = None
        \/ ~ (1 <= rating (page m) <= 10) ->
      let after := fst (handleSubmit (userId (props m)) (page m)) in
      snd (handleSubmit (userId (props m)) (page m)) = []
      /\ network_calls (snd (handleSubmit (userId (props m)) (page m))) = []
      /\ submitMessage after = "Please fill all fields and select location and rating."
      /\ statusLineShown after = true
      /\ after
         = {| selectedLocation := selectedLocation (page m);
              description := description (page m);
              submitMessage := "Please fill all fields and select location and rating.";
              submitting := submitting (page m);
              searchQuery := searchQuery (page m);
              suggestions := suggestions (page m);
              isClient := isClient (page m);
              rating := rating (page m);
              hoverRating := hoverRating (page m) |}
      /\ (submitting (page m) = false ->
          snd (step m SubmitClick) = []
          /\ page (fst (step m SubmitClick)) = after)).
Proof.
  pose proof (reachable_rating m Hreach) as Hscale. unfold rating_on_scale in Hscale.
  split.
  - intros e r Hin Hm. apply step_posts in Hin as [_ Hin]; [|exact Hm].
    destruct (handleSubmit_decide (page m)) as [Hbad|[loc [Hd [Hl Hr]]]].
    + rewrite (handleSubmit_invalid _ _ Hbad) in Hin. simpl in Hin. contradiction.
    + repeat split; try congruence; lia.
  - intros Hbad.
    assert (description (page m) = "" \/ selectedLocation (page m) = None
            \/ rating (page m) = 0) as Hbad'.
    { destruct Hbad as [H|[H|H]]; auto. right. right. lia. }
    cbv zeta. unfold step.
    rewrite (handleSubmit_invalid _ _ Hbad').
    do 5 (split; [reflexivity|]).
    intros Henabled. rewrite Henabled. split; reflexivity.
Qed.

(** An ok response, whatever its body, ends in the reset form with the
    success message. *)
Lemma handleSubmit_settled_ok (status : N) (text : string) (st : State) :
  ok status = true ->
  fst (handleSubmit_settled (Response status text) st)
  = {| selectedLocation := None; description := "";
       submitMessage := "Report submitted successfully!";
       submitting := false; searchQuery := searchQuery st;
       suggestions := suggestions st; isClient := isClient st;
       rating := 0; hoverRating := hoverRating st |}.
Proof.
  intros Hok. unfold handleSubmit_settled, awaitResponse.
  destruct (parseResponse text) as [data logged]. rewrite Hok. reflexivity.
Qed.



Lemma handleSubmit_settled_submitting (r : FetchOutcome) (st : State) :
  exists st1, fst (handleSubmit_settled r st) = setSubmitting false st1.
Proof.
  unfold handleSubmit_settled.
  destruct (awaitResponse r) as [[[]|msg] logged]; simpl; eauto.
Qed.




(** The same when the request itself fails: the error's message is shown
    and the draft is kept. *)
Lemma network_failure_reported (msg : string) (st : State) :
  let after := fst (handleSubmit_settled (Rejected msg) st) in
  submitMessage after = failurePrefix ++ msg
  /\ description after = description st /\ rating after = rating st
  /\ selectedLocation after = selectedLocation st /\ submitting after = false.
Proof. repeat split. Qed.

Lemma handleSubmit_frame (uid : string) (st : State) :
  let after := fst (handleSubmit uid st) in
  searchQuery after = searchQuery st /\ suggestions after = suggestions st
  /\ hoverRating after = hoverRating st /\ isClient after = isClient st.
Proof.
  unfold handleSubmit.
  destruct (negb (string_truthy (description st)) || is_none (selectedLocation st)
            || (rating st =? 0))%bool; [repeat split|].
  destruct (selectedLocation st); repeat split.
Qed.

Lemma handleSubmit_settled_frame (r : FetchOutcome) (st : State) :
  let after := fst (handleSubmit_settled r st) in
  searchQuery after = searchQuery st /\ suggestions after = suggestions st
  /\ hoverRating after = hoverRating st /\ isClient after = isClient st.
Proof.
  unfold handleSubmit_settled.
  destruct (awaitResponse r) as [[[]|msg] logged]; repeat split.
Qed.

Lemma same_outside_submission_commit (m : Machine) (st' : State) :
  searchQuery st' = searchQuery (page m) -> suggestions st' = suggestions (page m) ->
  hoverRating st' = hoverRating (page m) -> isClient st' = isClient (page m) ->
  same_outside_submission m (commit m st').
Proof.
  intros Hq Hs Hh Hc. unfold same_outside_submission.
  rewrite commit_page, commit_props, (commit_timer_kept m st' Hq). auto 10.
Qed.

Lemma same_outside_submission_refl (m : Machine) : same_outside_submission m m.
Proof. unfold same_outside_submission. auto 10. Qed.

Lemma same_outside_submission_trans (a b c : Machine) :
  same_outside_submission a b -> same_outside_submission b c ->
  same_outside_submission a c.
Proof.
  unfold same_outside_submission. intros H1 H2.
  destruct H1 as (?&?&?&?&?&?&?), H2 as (?&?&?&?&?&?&?).
  repeat split; etransitivity; eassumption.
Qed.

(** C10.  A click on the submit button and the settling of its request,
    successful or not, leave the search text, the suggestion list, the
    hover rating and the user identifier as they were (and with them the
    client flag, the other props and the debounce timer): only
    description, rating, coordinate, status message and submitting flag
    are written. *)
Theorem submission_frame (m : Machine) (r : FetchOutcome) :
  same_outside_submission m (fst (step m SubmitClick))
  /\ same_outside_submission m (fst (step m (SubmitSettled r)))
  /\ same_outside_submission m
       (fst (step (fst (step m SubmitClick)) (SubmitSettled r)))
  /\ (forall (uid : string) (st : State),
        let after := fst (handleSubmit_settled r (fst (handleSubmit uid st))) in
        searchQuery after = searchQuery st /\ suggestions after = suggestions st
        /\ hoverRating after = hoverRating st).
Proof.
  assert (forall m0, same_outside_submission m0 (fst (step m0 SubmitClick))) as Hclick.
  { intros m0. unfold step. destruct (submitting (page m0)).
    - apply same_outside_submission_refl.
    - pose proof (handleSubmit_frame (userId (props m0)) (page m0)) as F.
      destruct (handleSubmit (userId (props m0)) (page m0)) as [st' effs].
      simpl in F. destruct F as (?&?&?&?).
      apply same_outside_submission_commit; assumption. }
  assert (forall m0, same_outside_submission m0 (fst (step m0 (SubmitSettled r)))) as Hsettled.
  { intros m0. unfold step.
    pose proof (handleSubmit_settled_frame r (page m0)) as F.
    destruct (handleSubmit_settled r (page m0)) as [st' effs].
    simpl in F. destruct F as (?&?&?&?).
    apply same_outside_submission_commit; assumption. }
  split; [|split; [|split]].
  - apply Hclick.
  - apply Hsettled.
  - eapply same_outside_submission_trans; [apply Hclick|apply Hsettled].
  - intros uid st.
    pose proof (handleSubmit_frame uid st) as F1.
    pose proof (handleSubmit_settled_frame r (fst (handleSubmit uid st))) as F2.
    simpl in *. destruct F1 as (?&?&?&?), F2 as (?&?&?&?).
    repeat split; etransitivity; eassumption.
Qed.

(** ** The initial coordinate and geolocation *)

(** A parameter that is missing, empty or not a number counts for nothing. *)
Lemma query_parameter_unusable (param : option string) :
  param = None \/ param = Some "" \/
  (exists s, param = Some s /\ parseFloat s = S754_nan) ->
  truthy (fromQuery param) = false.
Proof.
  intros [->|[->|[s [-> Hnan]]]]; try reflexivity.
  unfold fromQuery. destruct (string_truthy s); [|reflexivity].
  simpl. rewrite Hnan. reflexivity.
Qed.

(** Two parameters that parse to numbers other than NaN and zero give the
    initial coordinate, and then no position is asked for. *)
Lemma query_coordinate_used (p : Props) (la ln : number) :
  latFromQuery p = Some la -> lngFromQuery p = Some ln ->
  number_truthy la = true -> number_truthy ln = true ->
  initialSelectedLocation p = Some {| lat := la; lng := ln |}
  /\ snd (mount p) = [].
Proof.
  intros Hla Hln Ta Tn. unfold initialSelectedLocation, mount, geolocationEffect.
  rewrite Hla, Hln. simpl. rewrite Ta, Tn. split; reflexivity.
Qed.

Lemma geolocationEffect_cases (p : Props) :
  (geolocationEffect p = [GetCurrentPosition true]
   /\ truthy (latFromQuery p) = false /\ truthy (lngFromQuery p) = false
   /\ geolocation_in_navigator p = true)
  \/ (geolocationEffect p = []
      /\ (truthy (latFromQuery p) = true \/ truthy (lngFromQuery p) = true
          \/ geolocation_in_navigator p = false)).
Proof.
  unfold geolocationEffect.
  destruct (truthy (latFromQuery p)), (truthy (lngFromQuery p)),
    (geolocation_in_navigator p); simpl; auto 10.
Qed.

Lemma no_coordinate_without_both (p : Props) :
  truthy (latFromQuery p) = false \/ truthy (lngFromQuery p) = false ->
  initialSelectedLocation p = None.
Proof.
  unfold initialSelectedLocation.
  destruct (latFromQuery p) as [la|], (lngFromQuery p) as [ln|]; simpl; try reflexivity.
  intros [->| ->]; [reflexivity|]. rewrite andb_false_r. reflexivity.
Qed.

Lemma geolocation_requests_app (a b : list Effect) :
  geolocation_requests (a ++ b) = (geolocation_requests a + geolocation_requests b)%nat.
Proof.
  unfold geolocation_requests. rewrite filter_app, length_app. reflexivity.
Qed.

Lemma handleSubmit_settled_no_geolocation (r : FetchOutcome) (st : State) :
  geolocation_requests (snd (handleSubmit_settled r st)) = 0%nat.
Proof.
  unfold handleSubmit_settled, awaitResponse.
  destruct r as [msg|status text]; [reflexivity|].
  assert (geolocation_requests (snd (parseResponse text)) = 0%nat) as Q.
  { unfold parseResponse. destruct (string_truthy text); [|reflexivity].
    destruct (JSON_parse text); reflexivity. }
  destruct (parseResponse text) as [data logged]. simpl in Q.
  destruct (negb (ok status)).
  - destruct (errorMessage data status); simpl;
      rewrite !geolocation_requests_app, Q; reflexivity.
  - simpl. rewrite geolocation_requests_app, Q. reflexivity.
Qed.

(** Only mounting asks for the position. *)
Lemma step_no_geolocation (m : Machine) (e : Event) :
  geolocation_requests (snd (step m e)) = 0%nat.
Proof.
  destruct e; unfold step; try reflexivity.
  - destruct (nth_error (suggestions (page m)) idx); reflexivity.
  - destruct (existsb (Z.eqb num) ratingButtons); reflexivity.
  - destruct (existsb (Z.eqb num) ratingButtons); reflexivity.
  - destruct (submitting (page m)); [reflexivity|].
    destruct (handleSubmit_decide (page m)) as [Hbad|[loc [Hd [Hl Hr]]]].
    + rewrite (handleSubmit_invalid _ _ Hbad). reflexivity.
    + rewrite (handleSubmit_valid _ _ loc Hd Hl Hr). reflexivity.
  - unfold elapse. destruct (timer m) as [[remaining q]|]; [|reflexivity].
    destruct (remaining <=? ms)%nat; [|reflexivity].
    unfold onDebounce. destruct (2 <? String.length q)%nat; reflexivity.
  - pose proof (handleSubmit_settled_no_geolocation r (page m)) as Q.
    destruct (handleSubmit_settled r (page m)) as [st' effs]. exact Q.
Qed.

Lemma run_no_geolocation (events : list Event) (m : Machine) :
  geolocation_requests (snd (run m events)) = 0%nat.
Proof.
  revert m. induction events as [|e events IH]; intros m; simpl; [reflexivity|].
  pose proof (step_no_geolocation m e) as H1.
  destruct (step m e) as [m1 effs1]. specialize (IH m1).
  destruct (run m1 events) as [m2 effs2]. simpl in *.
  rewrite geolocation_requests_app, H1, IH. reflexivity.
Qed.

Lemma step_PositionFailed (m : Machine) :
  step m PositionFailed = (m, [Console warn "Geolocation error:"]).
Proof.
  destruct m as [p st t]. unfold step, onPositionError, commit. simpl.
  rewrite String.eqb_refl. reflexivity.
Qed.

(** Over the whole life of the mounted page at most one position request
    is made, and one is made exactly when neither query parameter parsed
    to a truthy number and the browser has geolocation; then no
    coordinate came from the query.  When the request fails the error is
    logged and nothing else happens: no state changes, so an unset
    coordinate stays unset, and no new request is made. *)
Lemma geolocation_at_most_once (p : Props) (events : list Event) :
  let requested :=
    geolocation_requests (snd (mount p) ++ snd (run (fst (mount p)) events)) in
  (requested <= 1)%nat
  /\ (requested = 1%nat <->
      truthy (latFromQuery p) = false /\ truthy (lngFromQuery p) = false
      /\ geolocation_in_navigator p = true)
  /\ (requested = 1%nat -> initialSelectedLocation p = None)
  /\ (forall m : Machine,
        step m PositionFailed = (m, [Console warn "Geolocation error:"])).
Proof.
  intros requested. subst requested.
  rewrite geolocation_requests_app, run_no_geolocation, Nat.add_0_r.
  unfold mount. simpl snd.
  destruct (geolocationEffect_cases p) as [[E [Ta [Tn G]]]|[E Hnot]]; rewrite E.
  - unfold geolocation_requests. simpl.
    split; [lia|]. split; [|split].
    + split; auto.
    + intros _. apply no_coordinate_without_both. auto.
    + apply step_PositionFailed.
  - unfold geolocation_requests. simpl.
    split; [lia|]. split; [|split].
    + split; [discriminate|]. intros (Ha & Hn & G).
      destruct Hnot as [H|[H|H]]; congruence.
    + discriminate.
    + apply step_PositionFailed.
Qed.

(** ** Place search *)

Lemma handleSuggestionClick_spec (place : Place.t) (st : State) :
  handleSuggestionClick place st =
  {| selectedLocation := Some {| lat := parseFloat (Place.lat place);
                                 lng := parseFloat (Place.lon place) |};
     description := description st;
     submitMessage := submitMessage st;
     submitting := submitting st;
     searchQuery := Place.display_name place;
     suggestions := [];
     isClient := isClient st;
     rating := rating st;
     hoverRating := hoverRating st |}.
Proof. reflexivity. Qed.

(** C8.  Submitting the search form does what a click on the first
    suggestion does when there is one, and changes nothing and requests
    nothing when the list is empty.  Choosing a suggestion sets the
    coordinate to its [lat] and [lon] texts read by [parseFloat], sets the
    search text to its display name and empties the suggestion list; the
    rest of the state is untouched. *)
Theorem search_submit_is_first_suggestion (m : Machine) :
  (forall (first : Place.t) (others : list Place.t),
      suggestions (page m) = first :: others ->
      step m SearchSubmit = step m (SuggestionClick 0)
      /\ handleSearchSubmit (page m) = handleSuggestionClick first (page m))
  /\ (suggestions (page m) = [] ->
      step m SearchSubmit = (m, []) /\ handleSearchSubmit (page m) = page m)
  /\ (forall (place : Place.t) (st : State),
        let after := handleSuggestionClick place st in
        selectedLocation after
        = Some {| lat := parseFloat (Place.lat place);
                  lng := parseFloat (Place.lon place) |}
        /\ searchQuery after = Place.display_name place
        /\ suggestions after = []
        /\ description after = description st /\ rating after = rating st
        /\ hoverRating after = hoverRating st
        /\ submitMessage after = submitMessage st
        /\ submitting after = submitting st /\ isClient after = isClient st).
Proof.
  split; [|split].
  - intros first others Hs. unfold step, handleSearchSubmit. rewrite Hs. simpl.
    split; reflexivity.
  - intros Hs. unfold step, handleSearchSubmit. rewrite Hs, commit_same.
    split; reflexivity.
  - intros place st. repeat split.
Qed.

(** ** The debounce *)

(** A keystroke that changes the text sets a fresh timer for the new text,
    whatever timer was pending, and touches nothing but the text. *)
Lemma step_SearchInput (m : Machine) (q : string) :
  q <> searchQuery (page m) ->
  step m (SearchInput q)
  = ({| props := props m; page := setSearchQuery q (page m);
        timer := Some (debounceDelay, q) |}, []).
Proof.
  intros Hq. unfold step, commit. simpl.
  destruct (String.eqb_spec q (searchQuery (page m))); [contradiction|reflexivity].
Qed.

(** Before its delay has run out the timer only counts down. *)
Lemma elapse_pending (m : Machine) (remaining ms : nat) (q : string) :
  timer m = Some (remaining, q) -> (ms < remaining)%nat ->
  elapse ms m
  = ({| props := props m; page := page m; timer := Some ((remaining - ms)%nat, q) |}, []).
Proof.
  intros Ht Hlt. unfold elapse. rewrite Ht.
  destruct (Nat.leb_spec remaining ms); [lia|reflexivity].
Qed.

(** Once it has, the callback runs and the timer is gone. *)
Lemma elapse_due (m : Machine) (remaining ms : nat) (q : string) :
  timer m = Some (remaining, q) -> (remaining <= ms)%nat ->
  elapse ms m
  = ({| props := props m; page := fst (onDebounce q (page m)); timer := None |},
     snd (onDebounce q (page m))).
Proof.
  intros Ht Hle. unfold elapse. rewrite Ht.
  destruct (Nat.leb_spec remaining ms); [|lia].
  destruct (onDebounce q (page m)); reflexivity.
Qed.

Lemma last_cons {A : Type} (a d : A) (l : list A) : last (a :: l) d = last l a.
Proof.
  revert a d. induction l as [|b l IH]; intros a d; [reflexivity|].
  change (last (a :: b :: l) d) with (last (b :: l) d).
  rewrite (IH b d), (IH b a). reflexivity.
Qed.

(** C6, as the code has it.  A change of the search text to one of at
    most two characters clears nothing at once: it requests nothing,
    leaves the suggestion list as it is and starts the 300 ms timer.
    While the timer runs the list stays; when it fires the list is
    emptied, whatever it held, and no search request is made. *)
Theorem short_query_clears_when_timer_fires (m : Machine) (q : string)
  (Hchange : q <> searchQuery (page m))
  (Hshort : (String.length q <= 2)%nat) :
  let typed := fst (step m (SearchInput q)) in
  snd (step m (SearchInput q)) = []
  /\ suggestions (page typed) = suggestions (page m)
  /\ timer typed = Some (debounceDelay, q)
  /\ (forall ms : nat, (ms < debounceDelay)%nat ->
        suggestions (page (fst (step typed (Elapse ms)))) = suggestions (page m)
        /\ snd (step typed (Elapse ms)) = [])
  /\ (forall ms : nat, (debounceDelay <= ms)%nat ->
        suggestions (page (fst (step typed (Elapse ms)))) = []
        /\ snd (step typed (Elapse ms)) = []).
Proof.
  intros typed. subst typed. rewrite (step_SearchInput m q Hchange). simpl fst. simpl snd.
  split; [reflexivity|]. split; [reflexivity|]. split; [reflexivity|]. split.
  - intros ms Hms. cbn [step].
    erewrite elapse_pending; [|reflexivity|exact Hms]. split; reflexivity.
  - intros ms Hms. cbn [step].
    erewrite elapse_due; [|reflexivity|exact Hms].
    unfold onDebounce. destruct (Nat.ltb_spec 2 (String.length q)); [lia|].
    split; reflexivity.
Qed.

(** With no timer pending, time passes without a trace. *)
Lemma pause_idle (stretches : list nat) (m : Machine) :
  timer m = None -> run m (pause stretches) = (m, []).
Proof.
  intros Ht. induction stretches as [|d rest IH]; [reflexivity|].
  unfold pause in *. cbn [map]. rewrite run_cons.
  change (step m (Elapse d)) with (elapse d m).
  unfold elapse. rewrite Ht. cbn [fst snd]. rewrite IH. reflexivity.
Qed.

(** Stretches of time that together stay below what is left of the timer
    only count it down. *)
Lemma pause_pending (stretches : list nat) :
  forall (m : Machine) (remaining : nat) (q : string),
    timer m = Some (remaining, q) -> (list_sum stretches < remaining)%nat ->
    run m (pause stretches)
    = ({| props := props m; page := page m;
          timer := Some ((remaining - list_sum stretches)%nat, q) |}, []).
Proof.
  induction stretches as [|d rest IH]; intros m remaining q Ht Hlt.
  - destruct m as [p st t]. simpl in *. subst t. rewrite Nat.sub_0_r. reflexivity.
  - change (list_sum (d :: rest)) with (d + list_sum rest)%nat in *.
    unfold pause in *. cbn [map]. rewrite run_cons.
    change (step m (Elapse d)) with (elapse d m).
    rewrite (elapse_pending m remaining d q Ht) by lia. cbn [fst snd].
    set (m1 := {| props := props m; page := page m;
                  timer := Some ((remaining - d)%nat, q) |}).
    rewrite (IH m1 (remaining - d)%nat q eq_refl) by lia.
    subst m1. cbn [props page fst snd app].
    replace (remaining - d - list_sum rest)%nat
      with (remaining - (d + list_sum rest))%nat by lia.
    reflexivity.
Qed.

(** Once they add up to what is left, the callback has run, exactly once. *)
Lemma pause_due (stretches : list nat) :
  forall (m : Machine) (remaining : nat) (q : string),
    timer m = Some (remaining, q) -> (0 < remaining)%nat ->
    (remaining <= list_sum stretches)%nat ->
    network_calls (snd (run m (pause stretches)))
    = network_calls (snd (onDebounce q (page m)))
    /\ timer (fst (run m (pause stretches))) = None.
Proof.
  induction stretches as [|d rest IH]; intros m remaining q Ht Hpos Hle.
  - simpl in Hle. lia.
  - change (list_sum (d :: rest)) with (d + list_sum rest)%nat in *.
    unfold pause in *. cbn [map]. rewrite run_cons.
    change (step m (Elapse d)) with (elapse d m).
    destruct (Nat.le_gt_cases remaining d) as [Hdue|Hnot].
    + rewrite (elapse_due m remaining d q Ht Hdue). cbn [fst snd].
      fold (pause rest). rewrite pause_idle by reflexivity. cbn [fst snd].
      rewrite app_nil_r. split; reflexivity.
    + rewrite (elapse_pending m remaining d q Ht Hnot). cbn [fst snd app].
      set (m1 := {| props := props m; page := page m;
                    timer := Some ((remaining - d)%nat, q) |}).
      apply (IH m1 (remaining - d)%nat q eq_refl); lia.
Qed.

(** During the keystrokes nothing is requested, and at their end the one
    pending timer is the full delay for the last text. *)
Lemma typing_burst_run (keys : list (list nat * string)) :
  forall (m : Machine) (q : string),
    timer m = Some (debounceDelay, q) -> searchQuery (page m) = q ->
    in_quick_succession q keys ->
    snd (run m (typing_burst keys)) = []
    /\ timer (fst (run m (typing_burst keys))) = Some (debounceDelay, last (map snd keys) q)
    /\ searchQuery (page (fst (run m (typing_burst keys)))) = last (map snd keys) q.
Proof.
  induction keys as [|[stretches q'] keys IH]; intros m q Ht Hq Hquick.
  - simpl. auto.
  - destruct Hquick as [Hgap [Hne Hrest]].
    cbn [map snd]. rewrite last_cons.
    cbn [typing_burst]. rewrite run_app.
    rewrite (pause_pending stretches m debounceDelay q Ht Hgap). cbn [fst snd].
    set (m1 := {| props := props m; page := page m;
                  timer := Some ((debounceDelay - list_sum stretches)%nat, q) |}).
    rewrite run_cons.
    rewrite (step_SearchInput m1 q') by (simpl; congruence). cbn [fst snd].
    set (m2 := {| props := props m1; page := setSearchQuery q' (page m1);
                  timer := Some (debounceDelay, q') |}).
    destruct (IH m2 q' eq_refl eq_refl Hrest) as [IH1 [IH2 IH3]].
    rewrite IH1. auto.
Qed.

(** C7.  Keystrokes that each change the search text and each come less
    than 300 ms after the one before (however that time is cut into
    stretches), all leaving more than two characters in the box: while
    they last no request is made; each keystroke replaces the pending
    timer by a fresh one of 300 ms for the new text; as long as less
    than 300 ms have passed since the last one there is still no
    request; and once 300 ms have passed exactly one request has been
    made, a GET of the geocoding address with the last text as its [q],
    and no timer is left. *)
Theorem debounced_search_fires_once
  (m : Machine) (first : string) (keys : list (list nat * string))
  (quiet : list nat)
  (Hfirst : first <> searchQuery (page m))
  (Hquick : in_quick_succession first keys)
  (Hlong : Forall (fun q => (2 < String.length q)%nat) (first :: map snd keys)) :
  let typing := SearchInput first :: typing_burst keys in
  let final := last (map snd keys) first in
  let request :=
    {| url := "https://nominatim.openstreetmap.org/search?format=json&q="
              ++ encodeURIComponent final ++ "&countrycodes=in";
       method := "GET"; headers := []; body := None |} in
  network_calls (snd (run m typing)) = []
  /\ timer (fst (run m typing)) = Some (300%nat, final)
  /\ ((list_sum quiet < 300)%nat ->
      network_calls (snd (run m (typing ++ pause quiet))) = [])
  /\ ((300 <= list_sum quiet)%nat ->
      network_calls (snd (run m (typing ++ pause quiet))) = [request]
      /\ timer (fst (run m (typing ++ pause quiet))) = None)
  /\ (forall (m0 : Machine) (q : string),
        q <> searchQuery (page m0) ->
        timer (fst (step m0 (SearchInput q))) = Some (300%nat, q)).
Proof.
  intros typing final request.
  assert (2 < String.length final)%nat as Hfinal.
  { subst final. rewrite Forall_forall in Hlong. apply Hlong.
    destruct (map snd keys) as [|k ks] eqn:E; [left; reflexivity|].
    right. rewrite <- E.
    assert (map snd keys <> []) as Hne by (rewrite E; discriminate).
    destruct (exists_last Hne) as [l' [a ->]]. rewrite last_last.
    apply in_or_app. right. left. reflexivity. }
  set (m1 := {| props := props m; page := setSearchQuery first (page m);
                timer := Some (debounceDelay, first) |}).
  assert (run m typing
          = (fst (run m1 (typing_burst keys)), snd (run m1 (typing_burst keys)))) as Hrun.
  { subst typing. rewrite run_cons, (step_SearchInput m first Hfirst). reflexivity. }
  destruct (typing_burst_run keys m1 first eq_refl eq_refl Hquick)
    as [Heffs [Htimer Hquery]].
  fold final in Htimer, Hquery.
  split; [rewrite Hrun; cbn [snd]; rewrite Heffs; reflexivity|].
  split; [rewrite Hrun; exact Htimer|].
  split; [|split].
  - intros Hq. rewrite run_app, Hrun. cbn [fst snd].
    rewrite (pause_pending quiet _ debounceDelay final Htimer Hq). cbn [snd].
    rewrite Heffs. reflexivity.
  - intros Hq. rewrite run_app, Hrun. cbn [fst snd].
    destruct (pause_due quiet _ debounceDelay final Htimer) as [Hcalls Hnone];
      [unfold debounceDelay; lia|exact Hq|].
    rewrite network_calls_app, Hcalls, Heffs, Hnone.
    unfold onDebounce. destruct (Nat.ltb_spec 2 (String.length final)); [|lia].
    split; reflexivity.
  - intros m0 q Hq. rewrite (step_SearchInput m0 q Hq). reflexivity.
Qed.

End Properties.

(** * Worked cases on the reference platform *)

(** ** The numbers and texts of the specification's examples *)

Example parseFloat_examples :
  map Reference.parseFloat ["0"; "-0"; ""; "abc"; "."; "12abc"; "  19.07 "; "1e-400"]
  = [S754_zero false; S754_zero true; S754_nan; S754_nan; S754_nan;
     S754_finite false 6755399441055744 (-49);
     S754_finite false 5367727805872210 (-48);
     S754_zero false].
Proof. vm_compute. reflexivity. Qed.

Example report_body_text :
  JSON_stringify (reportBody "u1" "Pothole here" Sample.pothole 7)
  = Reference.dq
      "{'userid':'u1','description':'Pothole here','latt':19.07,'long':72.87,'rating':7}".
Proof. vm_compute. reflexivity. Qed.

Example search_address :
  searchUrl "new delhi"
  = "https://nominatim.openstreetmap.org/search?format=json&q=new%20delhi&countrycodes=in".
Proof. vm_compute. reflexivity. Qed.

Example accepted_report :
  let after := fst (step Sample.submitted
                      (SubmitSettled (Response 200 (Reference.dq "{'status':'ok'}")))) in
  page after
  = {| selectedLocation := None; description := ""; submitMessage := successMessage;
       submitting := false; searchQuery := ""; suggestions := []; isClient := true;
       rating := 0; hoverRating := 0 |}.
Proof. vm_compute. reflexivity. Qed.

Example accepted_report_empty_body :
  submitMessage (page (fst (step Sample.submitted (SubmitSettled (Response 200 "")))))
  = successMessage.
Proof. vm_compute. reflexivity. Qed.

Example rejected_report_null_body :
  submitMessage (page (fst (step Sample.submitted (SubmitSettled (Response 500 "null")))))
  = "Failed to submit report. Cannot read properties of null (reading 'message')".
Proof. vm_compute. reflexivity. Qed.

(** With one usable parameter out of two there is neither a coordinate
    nor a position request. *)
Example latitude_only :
  initialSelectedLocation Sample.visitor_with_latitude_only = None
  /\ snd (mount Sample.visitor_with_latitude_only) = [].
Proof. vm_compute. split; reflexivity. Qed.

Example coordinate_from_query :
  initialSelectedLocation Sample.visitor_with_coordinate = Some Sample.pothole
  /\ snd (mount Sample.visitor_with_coordinate) = [].
Proof. vm_compute. split; reflexivity. Qed.

(** Escapes in the texts of a JSON body: a code unit below 256 is read as
    it is, one above is carried as a question mark. *)
Example escaped_texts :
  map (fun body => JSON_parse (Reference.dq body))
      ["'\u0041\u00e9'"; "{'message':'\u2603 down'}"; "'\u12'"; "'\n\/'"]
  = [Some (JStr (String "A" (String (ascii_of_N 233) "")));
     Some (JObj [("message", JStr "? down")]);
     None;
     Some (JStr (String (ascii_of_N 10) "/"))].
Proof. vm_compute. reflexivity. Qed.

(** ** Submission *)

Lemma drafted_reachable : reachable Sample.drafted.
Proof.
  exists Sample.visitor,
    [DescriptionInput "Pothole here"; MapSelect Sample.pothole; RatingClick 7].
  reflexivity.
Defined.

Lemma fresh_reachable : reachable EdgeSamples.fresh.
Proof. exists Sample.visitor, []. reflexivity. Defined.

Lemma submission_only_when_valid_witness :
  (In (submitRequest (reportBody "u1" "Pothole here" Sample.pothole 7))
      (network_calls (snd (step Sample.drafted SubmitClick)))
   /\ description (page Sample.drafted) <> ""
   /\ selectedLocation (page Sample.drafted) <> None
   /\ 1 <= rating (page Sample.drafted) <= 10)
  /\ (description (page EdgeSamples.fresh) = ""
      /\ snd (step EdgeSamples.fresh SubmitClick) = []
      /\ page (fst (step EdgeSamples.fresh SubmitClick))
         = {| selectedLocation := None; description := "";
              submitMessage := "Please fill all fields and select location and rating.";
              submitting := false; searchQuery := ""; suggestions := [];
              isClient := true; rating := 0; hoverRating := 0 |}).
Proof.
  split.
  - assert (In (submitRequest (reportBody "u1" "Pothole here" Sample.pothole 7))
              (network_calls (snd (step Sample.drafted SubmitClick)))) as Hin.
    { vm_compute. left. reflexivity. }
    split; [exact Hin|].
    exact (proj1 (submission_only_when_valid Sample.drafted drafted_reachable)
             SubmitClick _ Hin eq_refl).
  - split; [reflexivity|].
    destruct (proj2 (submission_only_when_valid EdgeSamples.fresh fresh_reachable)
                (or_introl eq_refl)) as (_ & _ & _ & _ & Hafter & Hclick).
    destruct (Hclick eq_refl) as [Heffs Hpage].
    split; [exact Heffs|]. rewrite Hpage, Hafter. reflexivity.
Defined.

Lemma append_assoc (a b c : string) : (a ++ b) ++ c = a ++ (b ++ c).
Proof. induction a as [|ch a IH]; simpl; [reflexivity|]. rewrite IH. reflexivity. Qed.

Lemma number_text_cases (n : number) :
  (number_finite n = false -> Reference.number_text n = "null")
  /\ (number_finite n = true -> Reference.number_text n = Reference.Number_toString n).
Proof.
  unfold Reference.number_text.
  destruct n; cbn [Reference.JSON_stringify number_finite];
    split; intros H; first [discriminate H | reflexivity].
Qed.

(** C2, as the code has it.  When the three checks pass, [handleSubmit]
    sends exactly one request: a POST to the submission address, with the
    JSON content type, whose body is [JSON.stringify] of an object with
    the properties userid, description, latt, long and rating, in this
    order, holding the user identifier, the description, the latitude and
    longitude of the selected coordinate and the rating.  In the text
    that [JSON.stringify] makes of it (the reference platform) the five
    names appear in that order, the two texts quoted, and each number as
    its decimal text when it is finite and as [null] when it is NaN or
    infinite.  An empty response body is read as the empty object, and
    whenever the response is ok, whatever its body, the status line shows
    "Report submitted successfully!", description, rating and coordinate
    are reset and the button is enabled. *)
Theorem valid_submission_posts_and_resets
  (uid : string) (st : State) (loc : Coord)
  (Hdescription : description st <> "")
  (Hlocation : selectedLocation st = Some loc)
  (Hrating : rating st <> 0) :
  (forall platform : Platform,
      network_calls (snd (handleSubmit (platform := platform) uid st))
      = [ {| url := "https://yashdb18-hersafety.hf.space/app/save_review";
             method := "POST";
             headers := [("Content-Type", "application/json")];
             body := Some (JSON_stringify (Platform := platform)
                             (JObj [ ("userid", JStr uid);
                                     ("description", JStr (description st));
                                     ("latt", JNum (lat loc));
                                     ("long", JNum (lng loc));
                                     ("rating", JNum (number_of_Z (rating st))) ])) |} ])
  /\ network_calls (snd (handleSubmit (platform := Reference.platform) uid st))
     = [ {| url := "https://yashdb18-hersafety.hf.space/app/save_review";
            method := "POST";
            headers := [("Content-Type", "application/json")];
            body := Some ("{" ++ Reference.dq "'userid':" ++ Reference.quote_string uid
                          ++ Reference.dq ",'description':"
                          ++ Reference.quote_string (description st)
                          ++ Reference.dq ",'latt':" ++ Reference.number_text (lat loc)
                          ++ Reference.dq ",'long':" ++ Reference.number_text (lng loc)
                          ++ Reference.dq ",'rating':"
                          ++ Reference.number_text (number_of_Z (rating st)) ++ "}") |} ]
  /\ (forall n : number,
        (number_finite n = false -> Reference.number_text n = "null")
        /\ (number_finite n = true ->
            Reference.number_text n = Reference.Number_toString n))
  /\ (1 <= rating st <= 10 ->
      In (rating st, Reference.number_text (number_of_Z (rating st)))
         [(1, "1"); (2, "2"); (3, "3"); (4, "4"); (5, "5");
          (6, "6"); (7, "7"); (8, "8"); (9, "9"); (10, "10")])
  /\ (forall platform : Platform,
        parseResponse (platform := platform) "" = (JObj [], []))
  /\ (forall (platform : Platform) (status : N) (text : string) (st' : State),
        ok status = true ->
        let after :=
          fst (handleSubmit_settled (platform := platform) (Response status text) st') in
        submitMessage after = "Report submitted successfully!"
        /\ statusLineShown after = true
        /\ description after = "" /\ rating after = 0
        /\ selectedLocation after = None
        /\ submitting after = false).
Proof.
  split; [|split; [|split; [|split; [|split]]]].
  - intros platform.
    rewrite (handleSubmit_valid uid st loc Hdescription Hlocation Hrating). reflexivity.
  - rewrite (handleSubmit_valid uid st loc Hdescription Hlocation Hrating).
    unfold submitRequest, reportBody, Reference.number_text. cbn [snd network_calls].
    change (@JSON_stringify Reference.platform) with Reference.JSON_stringify.
    change (Reference.JSON_stringify
              (JObj [ ("userid", JStr uid); ("description", JStr (description st));
                      ("latt", JNum (lat loc)); ("long", JNum (lng loc));
                      ("rating", JNum (number_of_Z (rating st))) ]))
      with ("{" ++ Reference.join ","
                     [ Reference.quote_string "userid" ++ ":" ++ Reference.quote_string uid;
                       Reference.quote_string "description" ++ ":"
                       ++ Reference.quote_string (description st);
                       Reference.quote_string "latt" ++ ":"
                       ++ Reference.JSON_stringify (JNum (lat loc));
                       Reference.quote_string "long" ++ ":"
                       ++ Reference.JSON_stringify (JNum (lng loc));
                       Reference.quote_string "rating" ++ ":"
                       ++ Reference.JSON_stringify (JNum (number_of_Z (rating st))) ]
            ++ "}").
    generalize (Reference.JSON_stringify (JNum (lat loc))) as latitude.
    generalize (Reference.JSON_stringify (JNum (lng loc))) as longitude.
    generalize (Reference.JSON_stringify (JNum (number_of_Z (rating st)))) as stars.
    generalize (Reference.quote_string uid) as user.
    generalize (Reference.quote_string (description st)) as words.
    intros words user stars longitude latitude.
    cbn [Reference.join]. rewrite !append_assoc. reflexivity.
  - apply number_text_cases.
  - intros Hscale.
    assert (rating st = 1 \/ rating st = 2 \/ rating st = 3 \/ rating st = 4
            \/ rating st = 5 \/ rating st = 6 \/ rating st = 7 \/ rating st = 8
            \/ rating st = 9 \/ rating st = 10) as Hcases by lia.
    repeat (destruct Hcases as [->|Hcases]; [vm_compute; tauto|]).
    rewrite Hcases. vm_compute. tauto.
  - reflexivity.
  - intros platform status text st' Hok. cbv zeta.
    rewrite (handleSubmit_settled_ok status text st' Hok). repeat split.
Qed.

Lemma valid_submission_posts_and_resets_witness :
  network_calls (snd (handleSubmit "u1" (page Sample.drafted)))
  = [ {| url := "https://yashdb18-hersafety.hf.space/app/save_review";
         method := "POST";
         headers := [("Content-Type", "application/json")];
         body := Some (Reference.dq
           "{'userid':'u1','description':'Pothole here','latt':19.07,'long':72.87,'rating':7}")
      |} ].
Proof.
  assert (description (page Sample.drafted) <> "") as Hd
    by (vm_compute; intros Habs; discriminate Habs).
  assert (selectedLocation (page Sample.drafted) = Some Sample.pothole) as Hl
    by (vm_compute; reflexivity).
  assert (rating (page Sample.drafted) <> 0) as Hr
    by (vm_compute; intros Habs; discriminate Habs).
  destruct (valid_submission_posts_and_resets "u1" (page Sample.drafted)
              Sample.pothole Hd Hl Hr) as (_ & Htext & _).
  rewrite Htext. vm_compute. reflexivity.
Defined.

(** C2 as stated fails: the body does not always carry the coordinate.
    With [?lat=Infinity&lng=-1e999] the initial coordinate is (Infinity,
    -Infinity), the checks pass once a description and a rating are
    given, and the body that is sent has [null] for both latt and long. *)
Lemma infinite_coordinate_is_sent_as_null :
  selectedLocation (page EdgeSamples.unbounded)
  = Some {| lat := S754_infinity false; lng := S754_infinity true |}
  /\ network_calls (snd (step EdgeSamples.unbounded SubmitClick))
     = [ {| url := "https://yashdb18-hersafety.hf.space/app/save_review";
            method := "POST";
            headers := [("Content-Type", "application/json")];
            body := Some (Reference.dq
              "{'userid':'u1','description':'Pothole here','latt':null,'long':null,'rating':7}")
         |} ].
Proof. vm_compute. split; reflexivity. Qed.


(** A [message] that is not a text is shown as JavaScript prints it, a
    falsy one gives way to the generic message. *)
Example other_message_fields :
  map (fun body =>
         submitMessage
           (fst (handleSubmit_settled (Response 404 (Reference.dq body))
                   (page Sample.submitted))))
      ["{'message':404}"; "{'message':false}"; "{'message':''}"; "[1]"; "5"]
  = ["Failed to submit report. 404";
     "Failed to submit report. HTTP error! status: 404";
     "Failed to submit report. HTTP error! status: 404";
     "Failed to submit report. HTTP error! status: 404";
     "Failed to submit report. HTTP error! status: 404"].
Proof. vm_compute. reflexivity. Qed.


(** The draft survives a failed submission and the button is enabled again
    (the specification's example with HTTP 500). *)
Example rejected_report :
  page (fst (step Sample.submitted
               (SubmitSettled (Response 500 (Reference.dq "{'message':'db error'}")))))
  = {| selectedLocation := Some Sample.pothole; description := "Pothole here";
       submitMessage := "Failed to submit report. db error";
       submitting := false; searchQuery := ""; suggestions := []; isClient := true;
       rating := 7; hoverRating := 0 |}.
Proof. vm_compute. reflexivity. Qed.

(** Every message of a failed submission carries the word the status line
    looks for, and the success message does not. *)
Lemma submission_failures_marked (msg : string) :
  includes "Failed" (failurePrefix ++ msg) = true
  /\ includes "Failed" successMessage = false.
Proof. split; reflexivity. Qed.

(** C9 fails on the validation message.  Pressing submit on the empty
    form requests nothing and sets the message "Please fill all fields and
    select location and rating."; the status line classifies a message as
    a failure by the word "Failed", which this message lacks, so it is
    shown in the colour of success, like "Report submitted
    successfully!". *)
Theorem validation_message_lacks_failure_word :
  let st := initialState Sample.visitor in
  let after := fst (handleSubmit "u1" st) in
  snd (handleSubmit "u1" st) = []
  /\ submitMessage after = "Please fill all fields and select location and rating."
  /\ statusLineShown after = true
  /\ includes "Failed" (submitMessage after) = false
  /\ statusLineClass after = "text-green-500"
  /\ statusLineClass (setSubmitMessage successMessage st) = "text-green-500"
  /\ statusLineClass (setSubmitMessage (failurePrefix ++ "db error") st) = "text-red-500".
Proof. vm_compute. repeat split. Qed.

(** ** Location *)

(** C4 fails on zero.  With [?lat=0&lng=0] both parameters parse as the
    number 0, yet the initial coordinate is unset and the position is
    asked for, because the code tests the parsed numbers for truthiness;
    with [?lat=0&lng=72.87] the coordinate is unset as well. *)
Theorem zero_query_coordinate_is_dropped :
  latFromQuery Sample.visitor_at_origin = Some (S754_zero false)
  /\ lngFromQuery Sample.visitor_at_origin = Some (S754_zero false)
  /\ initialSelectedLocation Sample.visitor_at_origin = None
  /\ snd (mount Sample.visitor_at_origin) = [GetCurrentPosition true]
  /\ lngFromQuery Sample.visitor_on_equator = Some (lng Sample.pothole)
  /\ initialSelectedLocation Sample.visitor_on_equator = None.
Proof. vm_compute. repeat split. Qed.

(** C5 fails with one usable parameter.  With [?lat=19.07] and no [lng],
    in a browser that has geolocation, no coordinate comes from the query
    and yet no position request is made, at mount or at any time after:
    the effect asks only when both parsed parameters are falsy (line 46),
    while the coordinate needs both of them truthy (line 29). *)
Theorem one_usable_parameter_gets_no_position_request (events : list Event) :
  let p := Sample.visitor_with_latitude_only in
  latParam p = Some "19.07" /\ lngParam p = None
  /\ geolocation_in_navigator p = true
  /\ latFromQuery p = Some (S754_finite false 5367727805872210 (-48))
  /\ lngFromQuery p = None
  /\ initialSelectedLocation p = None
  /\ snd (mount p) = []
  /\ geolocation_requests (snd (mount p) ++ snd (run (fst (mount p)) events)) = 0%nat.
Proof.
  cbv zeta. rewrite geolocation_requests_app, run_no_geolocation.
  vm_compute. repeat split.
Qed.

(** In a browser without geolocation no position request is made. *)
Example no_request_without_geolocation :
  initialSelectedLocation Sample.visitor_without_geolocation = None
  /\ geolocation_requests
       (snd (mount Sample.visitor_without_geolocation)
        ++ snd (run (fst (mount Sample.visitor_without_geolocation)) [])) = 0%nat.
Proof. vm_compute. split; reflexivity. Qed.

(** ** Search *)

(** C6 as stated fails: right after the text became [mu] the suggestion is
    still listed. *)
Lemma short_query_keeps_list_at_first :
  let typed := fst (step Sample.listed (SearchInput "mu")) in
  suggestions (page Sample.listed) = [Sample.mumbai]
  /\ (String.length (searchQuery (page typed)) <= 2)%nat
  /\ suggestions (page typed) = [Sample.mumbai]
  /\ timer typed = Some (300%nat, "mu").
Proof. vm_compute. repeat split; lia. Qed.

Lemma short_query_clears_when_timer_fires_witness :
  let typed := fst (step Sample.listed (SearchInput "mu")) in
  suggestions (page (fst (step typed (Elapse 299)))) = [Sample.mumbai]
  /\ suggestions (page (fst (step typed (Elapse 300)))) = []
  /\ snd (step typed (Elapse 300)) = [].
Proof.
  assert ("mu" <> searchQuery (page Sample.listed)) as Hchange by (vm_compute; intros Habs; discriminate Habs).
  assert (String.length "mu" <= 2)%nat as Hshort by (simpl; lia).
  destruct (short_query_clears_when_timer_fires Sample.listed "mu" Hchange Hshort)
    as (_ & _ & _ & Hpending & Hdue).
  destruct (Hpending 299%nat) as [H1 _]; [unfold debounceDelay; lia|].
  destruct (Hdue 300%nat) as [H2 H3]; [unfold debounceDelay; lia|].
  cbv zeta. rewrite H1, H2, H3. repeat split.
Defined.

Lemma debounced_search_fires_once_witness :
  network_calls
    (snd (run (fst (mount Sample.visitor))
            ((SearchInput "mum" :: typing_burst EdgeSamples.keystrokes)
             ++ pause [100; 100; 100]%nat)))
  = [ {| url := "https://nominatim.openstreetmap.org/search?format=json&q=mumbai&countrycodes=in";
         method := "GET"; headers := []; body := None |} ]
  /\ network_calls
       (snd (run (fst (mount Sample.visitor))
               ((SearchInput "mum" :: typing_burst EdgeSamples.keystrokes)
                ++ pause [100; 199]%nat)))
     = [].
Proof.
  assert ("mum" <> searchQuery (page (fst (mount Sample.visitor)))) as Hfirst
    by (vm_compute; intros Habs; discriminate Habs).
  assert (in_quick_succession "mum" EdgeSamples.keystrokes) as Hquick.
  { unfold EdgeSamples.keystrokes. cbn [in_quick_succession list_sum fold_right].
    unfold debounceDelay.
    repeat match goal with
           | |- _ /\ _ => split
           | |- (_ < _)%nat => simpl; lia
           | |- _ <> _ => discriminate
           | |- True => exact I
           end. }
  assert (Forall (fun q => (2 < String.length q)%nat)
            ("mum" :: map snd EdgeSamples.keystrokes)) as Hlong.
  { unfold EdgeSamples.keystrokes. simpl. repeat constructor. }
  split.
  - destruct (debounced_search_fires_once (fst (mount Sample.visitor)) "mum"
                EdgeSamples.keystrokes [100; 100; 100]%nat Hfirst Hquick Hlong)
      as (_ & _ & _ & Hfire & _).
    destruct Hfire as [Hcalls _]; [simpl; lia|].
    rewrite Hcalls. vm_compute. reflexivity.
  - destruct (debounced_search_fires_once (fst (mount Sample.visitor)) "mum"
                EdgeSamples.keystrokes [100; 199]%nat Hfirst Hquick Hlong)
      as (_ & _ & Hwait & _).
    apply Hwait. simpl. lia.
Defined.

(** * Further properties of the page *)

Section Coverage.
Context {platform : Platform}.

(** ** Invariants of the mounted page *)

Lemma commit_consistent (m : Machine) (st' : State) :
  timer_consistent m -> timer_consistent (commit m st').
Proof.
  unfold timer_consistent, commit. simpl. intros H.
  destruct (String.eqb_spec (searchQuery st') (searchQuery (page m))) as [E|E].
  - destruct (timer m) as [[remaining q]|]; [|exact I].
    destruct H as [Hq Hr]. split; [congruence|exact Hr].
  - unfold debounceDelay. split; [reflexivity|lia].
Qed.

Lemma elapse_consistent (ms : nat) (m : Machine) :
  timer_consistent m -> timer_consistent (fst (elapse ms m)).
Proof.
  unfold timer_consistent, elapse. intros H.
  destruct (timer m) as [[remaining q]|] eqn:T; [|simpl; rewrite T; exact I].
  destruct (Nat.leb_spec remaining ms).
  - destruct (onDebounce q (page m)); exact I.
  - simpl. destruct H as [Hq Hr]. split; [exact Hq|lia].
Qed.

Lemma step_consistent (m : Machine) (e : Event) :
  timer_consistent m -> timer_consistent (fst (step m e)).
Proof.
  intros H. destruct e; unfold step;
    try (apply commit_consistent; exact H).
  - destruct (nth_error (suggestions (page m)) idx);
      [apply commit_consistent|]; exact H.
  - destruct (existsb (Z.eqb num) ratingButtons); [apply commit_consistent|]; exact H.
  - destruct (existsb (Z.eqb num) ratingButtons); [apply commit_consistent|]; exact H.
  - destruct (submitting (page m)); [exact H|].
    destruct (handleSubmit (userId (props m)) (page m)). apply commit_consistent, H.
  - apply elapse_consistent, H.
  - destruct (handleSubmit_settled r (page m)). apply commit_consistent, H.
Qed.

Lemma step_hover (m : Machine) (e : Event) :
  hover_on_scale (page m) -> hover_on_scale (page (fst (step m e))).
Proof.
  unfold hover_on_scale. intros H.
  destruct e; unfold step; try (simpl; exact H).
  - unfold handleSearchSubmit. destruct (suggestions (page m)); exact H.
  - destruct (nth_error (suggestions (page m)) idx); exact H.
  - destruct (existsb (Z.eqb num) ratingButtons); exact H.
  - destruct (existsb (Z.eqb num) ratingButtons) eqn:E; [|exact H].
    apply ratingButtons_range in E. simpl. lia.
  - simpl. lia.
  - destruct (submitting (page m)); [exact H|].
    pose proof (handleSubmit_frame (userId (props m)) (page m)) as F.
    destruct (handleSubmit (userId (props m)) (page m)) as [st' effs].
    simpl in *. destruct F as (_ & _ & F & _). rewrite F. exact H.
  - unfold elapse. destruct (timer m) as [[remaining q]|]; [|exact H].
    destruct (remaining <=? ms)%nat; [|exact H].
    unfold onDebounce. destruct (2 <? String.length q)%nat; exact H.
  - destruct data; exact H.
  - pose proof (handleSubmit_settled_frame r (page m)) as F.
    destruct (handleSubmit_settled r (page m)) as [st' effs].
    simpl in *. destruct F as (_ & _ & F & _). rewrite F. exact H.
Qed.

Lemma reachable_invariants (m : Machine) :
  reachable m ->
  timer_consistent m /\ hover_on_scale (page m) /\ rating_on_scale (page m).
Proof.
  intros Hreach. split; [|split; [|apply reachable_rating, Hreach]];
    destruct Hreach as [p [events ->]].
  - assert (timer_consistent (fst (mount p))) as H0.
    { unfold timer_consistent, mount. cbn [fst timer]. unfold debounceDelay.
      split; [reflexivity|lia]. }
    revert H0. generalize (fst (mount p)) as m0.
    induction events as [|e events IH]; intros m0 H0; [exact H0|].
    rewrite run_cons. cbn [fst]. apply IH, step_consistent, H0.
  - assert (hover_on_scale (page (fst (mount p)))) as H0.
    { unfold hover_on_scale. simpl. lia. }
    revert H0. generalize (fst (mount p)) as m0.
    induction events as [|e events IH]; intros m0 H0; [exact H0|].
    rewrite run_cons. cbn [fst]. apply IH, step_hover, H0.
Qed.

(** X6.  On a mounted page every search request comes from the debounce
    timer firing, is for the text that is in the search box at that
    moment, and that text has more than two characters: no request for a
    text the user has already replaced, none for a short one. *)
Theorem searches_are_for_the_current_text
  (m : Machine) (e : Event) (r : Request)
  (Hreach : reachable m)
  (Hin : In r (network_calls (snd (step m e))))
  (Hget : method r = "GET") :
  r = {| url := "https://nominatim.openstreetmap.org/search?format=json&q="
                ++ encodeURIComponent (searchQuery (page m)) ++ "&countrycodes=in";
         method := "GET"; headers := []; body := None |}
  /\ (2 < String.length (searchQuery (page m)))%nat
  /\ exists ms : nat, e = Elapse ms.
Proof.
  destruct (reachable_invariants m Hreach) as [Ht _].
  destruct e; unfold step in Hin; try (simpl in Hin; contradiction).
  - destruct (nth_error (suggestions (page m)) idx); simpl in Hin; contradiction.
  - destruct (existsb (Z.eqb num) ratingButtons); simpl in Hin; contradiction.
  - destruct (existsb (Z.eqb num) ratingButtons); simpl in Hin; contradiction.
  - destruct (submitting (page m)); [simpl in Hin; contradiction|].
    destruct (handleSubmit_decide (page m)) as [Hbad|[loc [Hd [Hl Hr]]]].
    + rewrite (handleSubmit_invalid _ _ Hbad) in Hin. simpl in Hin. contradiction.
    + rewrite (handleSubmit_valid _ _ loc Hd Hl Hr) in Hin. simpl in Hin.
      destruct Hin as [<-|[]]. discriminate Hget.
  - unfold elapse in Hin. unfold timer_consistent in Ht.
    destruct (timer m) as [[remaining q]|]; [|simpl in Hin; contradiction].
    destruct Ht as [-> _].
    destruct (remaining <=? ms)%nat; [|simpl in Hin; contradiction].
    unfold onDebounce in Hin.
    destruct (Nat.ltb_spec 2 (String.length (searchQuery (page m)))) as [Hlen|Hlen];
      simpl in Hin; [|contradiction].
    destruct Hin as [<-|[]]. split; [reflexivity|]. split; [exact Hlen|]. eauto.
  - pose proof (handleSubmit_settled_quiet r0 (page m)) as Q.
    destruct (handleSubmit_settled r0 (page m)) as [st' effs]. simpl in *.
    rewrite Q in Hin. contradiction.
Qed.

(** X8.  The rating buttons that are lit are the first ones, up to the
    hovered value while the pointer is over a button and up to the
    selected rating otherwise; on a mounted page that value is between 0
    and 10 and is the number of lit buttons. *)
Theorem lit_buttons_are_a_prefix (m : Machine) (Hreach : reachable m) :
  let st := page m in
  filter (ratingHighlighted st) ratingButtons
  = firstn (Z.to_nat (activeRating st)) ratingButtons
  /\ 0 <= activeRating st <= 10
  /\ Z.of_nat (List.length (filter (ratingHighlighted st) ratingButtons)) = activeRating st
  /\ (hoverRating st <> 0 -> activeRating st = hoverRating st)
  /\ (hoverRating st = 0 -> activeRating st = rating st).
Proof.
  destruct (reachable_invariants m Hreach) as (_ & Hh & Hr).
  unfold hover_on_scale, rating_on_scale in *. cbv zeta.
  assert (0 <= activeRating (page m) <= 10) as Ha.
  { unfold activeRating. destruct (hoverRating (page m) =? 0); lia. }
  assert (forall k, 0 <= k <= 10 ->
            filter (fun num => k >=? num) ratingButtons = firstn (Z.to_nat k) ratingButtons
            /\ Z.of_nat (List.length (filter (fun num => k >=? num) ratingButtons)) = k)
    as Hprefix.
  { intros k Hk.
    assert (k = 0 \/ k = 1 \/ k = 2 \/ k = 3 \/ k = 4 \/ k = 5 \/ k = 6 \/ k = 7
            \/ k = 8 \/ k = 9 \/ k = 10) as Hcases by lia.
    repeat (destruct Hcases as [->|Hcases]; [split; reflexivity|]).
    subst k. split; reflexivity. }
  destruct (Hprefix _ Ha) as [H1 H2].
  split; [exact H1|]. split; [exact Ha|]. split; [exact H2|].
  unfold activeRating. split; intros H.
  - apply Z.eqb_neq in H. rewrite H. reflexivity.
  - rewrite H. reflexivity.
Qed.

(** ** One submission at a time *)

Lemma submissions_app (a b : list Effect) :
  submissions (a ++ b) = (submissions a ++ submissions b)%list.
Proof. unfold submissions. rewrite network_calls_app, filter_app. reflexivity. Qed.

Lemma searches_app (a b : list Effect) :
  searches (a ++ b) = (searches a ++ searches b)%list.
Proof. unfold searches. rewrite network_calls_app, filter_app. reflexivity. Qed.

Lemma handleSubmit_submitting (uid : string) (st : State) :
  submitting st = false ->
  (snd (handleSubmit uid st) = [] /\ submitting (fst (handleSubmit uid st)) = false)
  \/ (List.length (submissions (snd (handleSubmit uid st))) = 1%nat
      /\ submitting (fst (handleSubmit uid st)) = true).
Proof.
  intros Hs. destruct (handleSubmit_decide st) as [Hbad|[loc [Hd [Hl Hr]]]].
  - left. rewrite (handleSubmit_invalid _ _ Hbad). split; [reflexivity|exact Hs].
  - right. rewrite (handleSubmit_valid _ _ loc Hd Hl Hr). split; reflexivity.
Qed.

(** Each step pays for the submissions it makes with the enabled button,
    which only a settled request gives back. *)
Lemma step_submissions (m : Machine) (e : Event) :
  (List.length (submissions (snd (step m e))) + idle (fst (step m e))
   <= idle m + (if is_settlement e then 1 else 0))%nat.
Proof.
  unfold idle. destruct e; unfold step; cbn [is_settlement];
    try (simpl; destruct (submitting (page m)); simpl; lia).
  - unfold handleSearchSubmit. destruct (suggestions (page m));
      simpl; destruct (submitting (page m)); simpl; lia.
  - destruct (nth_error (suggestions (page m)) idx);
      simpl; destruct (submitting (page m)); simpl; lia.
  - destruct (existsb (Z.eqb num) ratingButtons);
      simpl; destruct (submitting (page m)); simpl; lia.
  - destruct (existsb (Z.eqb num) ratingButtons);
      simpl; destruct (submitting (page m)); simpl; lia.
  - destruct (submitting (page m)) eqn:Hs; [simpl; rewrite Hs; simpl; lia|].
    destruct (handleSubmit_submitting (userId (props m)) (page m) Hs) as [[H1 H2]|[H1 H2]];
      destruct (handleSubmit (userId (props m)) (page m)) as [st' effs];
      simpl in *; rewrite H2; [subst effs; simpl; lia|rewrite H1; simpl; lia].
  - unfold elapse. destruct (timer m) as [[remaining q]|];
      [|simpl; destruct (submitting (page m)); simpl; lia].
    destruct (remaining <=? ms)%nat;
      [|simpl; destruct (submitting (page m)); simpl; lia].
    unfold onDebounce. destruct (2 <? String.length q)%nat;
      simpl; destruct (submitting (page m)); simpl; lia.
  - destruct data; simpl; destruct (submitting (page m)); simpl; lia.
  - pose proof (handleSubmit_settled_quiet r (page m)) as Q.
    destruct (handleSubmit_settled r (page m)) as [st' effs]. simpl in *.
    unfold submissions. rewrite Q. simpl.
    destruct (submitting st'), (submitting (page m)); simpl; lia.
Qed.

Lemma run_submissions (events : list Event) (m : Machine) :
  (List.length (submissions (snd (run m events))) + idle (fst (run m events))
   <= idle m + List.length (filter is_settlement events))%nat.
Proof.
  revert m. induction events as [|e events IH]; intros m.
  - simpl. lia.
  - rewrite run_cons. cbn [fst snd]. rewrite submissions_app, length_app.
    pose proof (step_submissions m e) as H1.
    specialize (IH (fst (step m e))).
    cbn [filter]. destruct (is_settlement e); simpl in *; lia.
Qed.

(** X1.  The page never has two submissions under way: in any run, from
    any state, the number of POST requests is at most one more than the
    number of requests that settled in that run, and while the button
    shows "Submitting..." it is at most that number.  In particular
    clicks alone never send a second report before the first has
    settled. *)
Theorem one_submission_at_a_time (m : Machine) (events : list Event) :
  (List.length (submissions (snd (run m events)))
   <= 1 + List.length (filter is_settlement events))%nat
  /\ (submitting (page m) = true ->
      (List.length (submissions (snd (run m events)))
       <= List.length (filter is_settlement events))%nat)
  /\ (filter is_settlement events = [] ->
      (List.length (submissions (snd (run m events))) <= 1)%nat).
Proof.
  pose proof (run_submissions events m) as H.
  assert (idle m <= 1)%nat as Hidle by (unfold idle; destruct (submitting (page m)); lia).
  split; [lia|]. split.
  - intros Hs. unfold idle in H at 2. rewrite Hs in H. lia.
  - intros Hnone. rewrite Hnone in H. simpl in H. lia.
Qed.

(** ** No search without a change of the text *)

Lemma armed_commit_kept (m : Machine) (st' : State) :
  searchQuery st' = searchQuery (page m) -> armed (commit m st') = armed m.
Proof.
  intros H. unfold armed. rewrite (commit_timer_kept m st' H). reflexivity.
Qed.

Lemma armed_le_1 (m : Machine) : (armed m <= 1)%nat.
Proof.
  unfold armed. destruct (timer m) as [[remaining q]|]; [|lia].
  destruct (2 <? String.length q)%nat; lia.
Qed.

Lemma step_searches (m : Machine) (e : Event) :
  (List.length (searches (snd (step m e))) + armed (fst (step m e))
   <= armed m + (if writes_query e then 1 else 0))%nat.
Proof.
  destruct e; unfold step; cbn [writes_query fst snd];
    try (rewrite armed_commit_kept by reflexivity; simpl; lia).
  - pose proof (armed_le_1 (commit m (setSearchQuery value (page m)))). simpl. lia.
  - pose proof (armed_le_1 (commit m (handleSearchSubmit (page m)))). simpl. lia.
  - destruct (nth_error (suggestions (page m)) idx) as [place|]; cbn [fst snd].
    + pose proof (armed_le_1 (commit m (handleSuggestionClick place (page m)))).
      simpl. lia.
    + simpl. lia.
  - destruct (existsb (Z.eqb num) ratingButtons); cbn [fst snd];
      [rewrite armed_commit_kept by reflexivity|]; simpl; lia.
  - destruct (existsb (Z.eqb num) ratingButtons); cbn [fst snd];
      [rewrite armed_commit_kept by reflexivity|]; simpl; lia.
  - destruct (submitting (page m)); [simpl; lia|].
    destruct (handleSubmit_decide (page m)) as [Hbad|[loc [Hd [Hl Hr]]]].
    + rewrite (handleSubmit_invalid _ _ Hbad). cbn [fst snd].
      rewrite armed_commit_kept by reflexivity. simpl. lia.
    + rewrite (handleSubmit_valid _ _ loc Hd Hl Hr). cbn [fst snd].
      rewrite armed_commit_kept by reflexivity. unfold searches. simpl. lia.
  - unfold elapse. destruct (timer m) as [[remaining q]|] eqn:T; [|simpl; lia].
    destruct (remaining <=? ms)%nat.
    + unfold onDebounce, armed. rewrite T.
      destruct (2 <? String.length q)%nat; simpl; lia.
    + unfold armed. rewrite T. simpl. lia.
  - unfold onPositionError. cbn [fst snd].
    rewrite armed_commit_kept by reflexivity. simpl. lia.
  - destruct data; rewrite armed_commit_kept by reflexivity; simpl; lia.
  - pose proof (handleSubmit_settled_quiet r (page m)) as Q.
    pose proof (handleSubmit_settled_frame r (page m)) as F.
    destruct (handleSubmit_settled r (page m)) as [st' effs]. simpl in Q, F.
    cbn [fst snd]. destruct F as (F & _).
    rewrite (armed_commit_kept m st' F). unfold searches. rewrite Q. simpl. lia.
Qed.

Lemma run_searches (events : list Event) (m : Machine) :
  (List.length (searches (snd (run m events))) + armed (fst (run m events))
   <= armed m + List.length (filter writes_query events))%nat.
Proof.
  revert m. induction events as [|e events IH]; intros m.
  - simpl. lia.
  - rewrite run_cons. cbn [fst snd]. rewrite searches_app, length_app.
    pose proof (step_searches m e) as H1.
    specialize (IH (fst (step m e))).
    cbn [filter]. destruct (writes_query e); simpl in *; lia.
Qed.

(** X7.  From the moment the page is mounted it never makes more search
    requests than the search text was written to (typed in, or set by
    choosing a suggestion): the timer set on mount makes none, time
    passing makes none of its own, and answers of the server, map clicks,
    ratings and submissions make none. *)
Theorem no_more_searches_than_changes (p : Props) (events : list Event) :
  searches (snd (mount p)) = []
  /\ (List.length (searches (snd (run (fst (mount p)) events)))
      <= List.length (filter writes_query events))%nat.
Proof.
  split.
  - unfold mount, geolocationEffect. cbn [snd].
    destruct (negb (truthy (latFromQuery p)) && negb (truthy (lngFromQuery p)))%bool;
      [destruct (geolocation_in_navigator p)|]; reflexivity.
  - pose proof (run_searches events (fst (mount p))) as H.
    assert (armed (fst (mount p)) = 0%nat) as H0 by reflexivity.
    lia.
Qed.

(** ** What a settled submission leaves behind *)

Lemma step_props (m : Machine) (e : Event) : props (fst (step m e)) = props m.
Proof.
  destruct e; unfold step; try reflexivity.
  - destruct (nth_error (suggestions (page m)) idx); reflexivity.
  - destruct (existsb (Z.eqb num) ratingButtons); reflexivity.
  - destruct (existsb (Z.eqb num) ratingButtons); reflexivity.
  - destruct (submitting (page m)); [reflexivity|].
    destruct (handleSubmit (userId (props m)) (page m)); reflexivity.
  - unfold elapse. destruct (timer m) as [[remaining q]|]; [|reflexivity].
    destruct (remaining <=? ms)%nat; [|reflexivity].
    destruct (onDebounce q (page m)); reflexivity.
  - destruct (handleSubmit_settled r (page m)); reflexivity.
Qed.

Lemma submission_frame_props (m : Machine) (r : FetchOutcome) :
  props (fst (step (fst (step m SubmitClick)) (SubmitSettled r))) = props m
  /\ props (fst (step m SubmitClick)) = props m.
Proof. rewrite !step_props. split; reflexivity. Qed.

Lemma step_SubmitSettled_page (m : Machine) (r : FetchOutcome) :
  page (fst (step m (SubmitSettled r))) = fst (handleSubmit_settled r (page m)).
Proof.
  unfold step. destruct (handleSubmit_settled r (page m)); reflexivity.
Qed.

Lemma step_SubmitClick_enabled (m : Machine) :
  submitting (page m) = false ->
  page (fst (step m SubmitClick)) = fst (handleSubmit (userId (props m)) (page m))
  /\ snd (step m SubmitClick) = snd (handleSubmit (userId (props m)) (page m)).
Proof.
  intros Hs. unfold step. rewrite Hs.
  destruct (handleSubmit (userId (props m)) (page m)); split; reflexivity.
Qed.

Lemma handleSubmit_settled_cases (r : FetchOutcome) (st : State) :
  (failed r = false
   /\ fst (handleSubmit_settled r st)
      = setSubmitting false
          (setSelectedLocation None
             (setRating 0 (setDescription "" (setSubmitMessage successMessage st)))))
  \/ (failed r = true
      /\ exists msg, fst (handleSubmit_settled r st)
                     = setSubmitting false (setSubmitMessage (failurePrefix ++ msg) st)).
Proof.
  unfold handleSubmit_settled, awaitResponse, failed.
  destruct r as [msg|status text];
    [right; split; [reflexivity|]; exists msg; reflexivity|].
  destruct (parseResponse text) as [data logged].
  destruct (ok status); simpl.
  - left. split; reflexivity.
  - right. split; [reflexivity|].
    destruct (errorMessage data status) as [msg|msg]; exists msg; reflexivity.
Qed.

Lemma handleSubmit_draft (uid : string) (st : State) :
  let after := fst (handleSubmit uid st) in
  description after = description st /\ rating after = rating st
  /\ selectedLocation after = selectedLocation st.
Proof.
  unfold handleSubmit.
  destruct (negb (string_truthy (description st)) || is_none (selectedLocation st)
            || (rating st =? 0))%bool; [repeat split|].
  destruct (selectedLocation st) eqn:E; repeat split; simpl; rewrite E; reflexivity.
Qed.

(** X2.  Once a submission has succeeded the button is enabled again,
    but pressing it sends nothing: the form was emptied, so the click
    only brings up the validation message.  The same report cannot be
    sent twice by pressing twice. *)
Theorem accepted_report_is_not_sent_again
  (m : Machine) (status : N) (text : string) (Hok : ok status = true) :
  let settled := fst (step m (SubmitSettled (Response status text))) in
  submitting (page settled) = false
  /\ submitMessage (page settled) = successMessage
  /\ snd (step settled SubmitClick) = []
  /\ submitMessage (page (fst (step settled SubmitClick))) = validationMessage.
Proof.
  intros settled.
  assert (page settled
          = setSubmitting false
              (setSelectedLocation None
                 (setRating 0
                    (setDescription "" (setSubmitMessage successMessage (page m))))))
    as Hpage.
  { subst settled. rewrite step_SubmitSettled_page.
    destruct (handleSubmit_settled_cases (Response status text) (page m))
      as [[_ H]|[Hf _]]; [exact H|].
    simpl in Hf. rewrite Hok in Hf. discriminate Hf. }
  assert (submitting (page settled) = false) as Hs by (rewrite Hpage; reflexivity).
  destruct (step_SubmitClick_enabled settled Hs) as [Hp He].
  assert (handleSubmit (userId (props settled)) (page settled)
          = (setSubmitMessage validationMessage (page settled), [])) as Hv.
  { apply handleSubmit_invalid. left. rewrite Hpage. reflexivity. }
  rewrite He, Hp, Hv, Hpage. repeat split.
Qed.

(** X3.  After a submission that failed (the request was rejected or the
    response was not ok) the draft is intact and the button enabled: the
    next click sends the very same request again. *)
Theorem failed_report_can_be_sent_again
  (m : Machine) (loc : Coord) (r : FetchOutcome)
  (Henabled : submitting (page m) = false)
  (Hdescription : description (page m) <> "")
  (Hlocation : selectedLocation (page m) = Some loc)
  (Hrating : rating (page m) <> 0)
  (Hfailed : failed r = true) :
  let request :=
    submitRequest (reportBody (userId (props m)) (description (page m)) loc
                     (rating (page m))) in
  let settled := fst (step (fst (step m SubmitClick)) (SubmitSettled r)) in
  network_calls (snd (step m SubmitClick)) = [request]
  /\ submitting (page (fst (step m SubmitClick))) = true
  /\ submitting (page settled) = false
  /\ includes "Failed" (submitMessage (page settled)) = true
  /\ network_calls (snd (step settled SubmitClick)) = [request].
Proof.
  intros request settled.
  destruct (step_SubmitClick_enabled m Henabled) as [Hp He].
  rewrite (handleSubmit_valid _ _ loc Hdescription Hlocation Hrating) in Hp, He.
  cbn [fst snd] in Hp, He.
  assert (exists msg, page settled
                      = setSubmitting false
                          (setSubmitMessage (failurePrefix ++ msg)
                             (setSubmitMessage "" (setSubmitting true (page m)))))
    as [msg Hpage].
  { subst settled. rewrite step_SubmitSettled_page, Hp.
    destruct (handleSubmit_settled_cases r
                (setSubmitMessage "" (setSubmitting true (page m))))
      as [[Hf _]|[_ H]]; [congruence|exact H]. }
  assert (submitting (page settled) = false) as Hs by (rewrite Hpage; reflexivity).
  destruct (step_SubmitClick_enabled settled Hs) as [_ He'].
  assert (props settled = props m) as Hprops.
  { destruct (submission_frame_props m r) as [H _]. exact H. }
  rewrite He, Hp, He'.
  rewrite (handleSubmit_valid (userId (props settled)) (page settled) loc);
    try (rewrite Hpage; simpl; assumption).
  rewrite Hprops, Hpage. repeat split.
Qed.

Lemma success_only (r : FetchOutcome) :
  failed r = false -> exists status text, r = Response status text /\ ok status = true.
Proof.
  destruct r as [msg|status text]; simpl; [discriminate|].
  intros H. exists status, text. split; [reflexivity|].
  destruct (ok status); [reflexivity|discriminate H].
Qed.

(** X4.  The draft is only ever emptied by a submission that succeeded.
    No other event unsets a selected coordinate (the map, a suggestion or
    geolocation can only replace it) or takes back a chosen rating, and a
    description is emptied by nothing else but the user clearing the
    textarea. *)
Theorem draft_is_emptied_only_by_success (m : Machine) (e : Event) :
  let after := page (fst (step m e)) in
  let accepted :=
    exists (status : N) (text : string),
      e = SubmitSettled (Response status text) /\ ok status = true in
  (selectedLocation (page m) <> None -> selectedLocation after = None -> accepted)
  /\ (rating (page m) <> 0 -> rating after = 0 -> accepted)
  /\ (description (page m) <> "" -> description after = "" ->
      accepted \/ e = DescriptionInput "").
Proof.
  cbv zeta.
  destruct e; unfold step.
  - simpl. repeat split; intros; congruence.
  - unfold handleSearchSubmit. destruct (suggestions (page m));
      simpl; repeat split; intros; congruence.
  - destruct (nth_error (suggestions (page m)) idx);
      simpl; repeat split; intros; congruence.
  - simpl. repeat split; intros; congruence.
  - simpl. repeat split; intros; try congruence. right. congruence.
  - destruct (existsb (Z.eqb num) ratingButtons) eqn:E;
      simpl; repeat split; intros; try congruence.
    apply ratingButtons_range in E. lia.
  - destruct (existsb (Z.eqb num) ratingButtons);
      simpl; repeat split; intros; congruence.
  - simpl. repeat split; intros; congruence.
  - destruct (submitting (page m)); [simpl; repeat split; intros; congruence|].
    pose proof (handleSubmit_draft (userId (props m)) (page m)) as D.
    destruct (handleSubmit (userId (props m)) (page m)) as [st' effs].
    simpl in *. destruct D as (D1 & D2 & D3).
    repeat split; intros; congruence.
  - unfold elapse. destruct (timer m) as [[remaining q]|];
      [|simpl; repeat split; intros; congruence].
    destruct (remaining <=? ms)%nat; [|simpl; repeat split; intros; congruence].
    unfold onDebounce. destruct (2 <? String.length q)%nat;
      simpl; repeat split; intros; congruence.
  - simpl. repeat split; intros; congruence.
  - simpl. repeat split; intros; congruence.
  - destruct data; simpl; repeat split; intros; congruence.
  - pose proof (handleSubmit_settled_cases r (page m)) as C.
    destruct (handleSubmit_settled r (page m)) as [st' effs]. simpl in *.
    destruct C as [[Hf ->]|[_ [msg ->]]]; simpl.
    + apply success_only in Hf. destruct Hf as (status & text & -> & Hok).
      repeat split; intros; try left; exists status, text; split; auto.
    + repeat split; intros; congruence.
Qed.

(** ** Choosing a suggestion starts a new search *)

(** X5.  Choosing a suggestion writes its display name into the search
    box, and that is a change of the text like any other: when the name
    differs from what the box held, the list is emptied and a fresh timer
    is set, and when the name has more than two characters the timer
    makes a search request for the name 300 ms later, whose answer fills
    the list again. *)
Theorem chosen_suggestion_is_searched_for
  (m : Machine) (idx : nat) (place : Place.t) (ms : nat) (answer : list Place.t)
  (Hlisted : nth_error (suggestions (page m)) idx = Some place)
  (Hnew : Place.display_name place <> searchQuery (page m))
  (Hlong : (2 < String.length (Place.display_name place))%nat)
  (Hquiet : (debounceDelay <= ms)%nat) :
  let chosen := fst (step m (SuggestionClick idx)) in
  suggestions (page chosen) = []
  /\ timer chosen = Some (debounceDelay, Place.display_name place)
  /\ snd (step chosen (Elapse ms))
     = [Fetch {| url := "https://nominatim.openstreetmap.org/search?format=json&q="
                       ++ encodeURIComponent (Place.display_name place)
                       ++ "&countrycodes=in";
                method := "GET"; headers := []; body := None |}]
  /\ suggestions
       (page (fst (run m [SuggestionClick idx; Elapse ms; SearchSettled (Some answer)])))
     = answer.
Proof.
  intros chosen.
  assert (chosen = commit m (handleSuggestionClick place (page m))) as Hc.
  { subst chosen. unfold step. rewrite Hlisted. reflexivity. }
  assert (timer chosen = Some (debounceDelay, Place.display_name place)) as Ht.
  { rewrite Hc. apply (commit_timer_reset m (handleSuggestionClick place (page m))).
    exact Hnew. }
  assert (step chosen (Elapse ms)
          = ({| props := props chosen; page := page chosen; timer := None |},
             [Fetch (searchRequest (Place.display_name place))])) as He.
  { cbn [step]. rewrite (elapse_due chosen _ ms _ Ht Hquiet).
    unfold onDebounce. destruct (Nat.ltb_spec 2 (String.length (Place.display_name place)));
      [reflexivity|lia]. }
  split; [rewrite Hc; reflexivity|]. split; [exact Ht|]. split; [rewrite He; reflexivity|].
  rewrite !run_cons. fold chosen. rewrite He. reflexivity.
Qed.

(** ** The coordinate of a chosen suggestion is not checked *)

(** X10.  The check before a submission only asks whether some
    coordinate object is selected.  A suggestion always selects one,
    whatever its [lat] and [lon] texts are, so with a description and a
    rating the report is sent with the numbers [parseFloat] made of them,
    NaN included. *)
Theorem chosen_suggestion_passes_the_check
  (uid : string) (place : Place.t) (st : State)
  (Hdescription : description st <> "")
  (Hrating : rating st <> 0) :
  let chosen := handleSuggestionClick place st in
  let loc := {| lat := parseFloat (Place.lat place); lng := parseFloat (Place.lon place) |} in
  selectedLocation chosen = Some loc
  /\ network_calls (snd (handleSubmit uid chosen))
     = [submitRequest (reportBody uid (description st) loc (rating st))].
Proof.
  intros chosen loc. split; [reflexivity|].
  rewrite (handleSubmit_valid uid chosen loc); [reflexivity| | |]; assumption || reflexivity.
Qed.

(** ** The line about the query coordinate *)

(** X9.  The "From URL Query" line is shown exactly when the initial
    coordinate was taken from the query, and with the same two numbers.
    When its place shows a bare number instead, that number is 0 or NaN,
    it is what one of the two parameters parsed to, and no coordinate was
    taken from the query; when its place is empty no coordinate was
    taken either. *)
Theorem query_line_matches_initial_coordinate (p : Props) :
  (forall la ln : number,
      queryBanner p = QueryBanner la ln
      <-> initialSelectedLocation p = Some {| lat := la; lng := ln |})
  /\ (forall n : number,
        queryBanner p = NumberText n ->
        number_truthy n = false
        /\ (latFromQuery p = Some n \/ lngFromQuery p = Some n)
        /\ initialSelectedLocation p = None)
  /\ (queryBanner p = Nothing ->
      initialSelectedLocation p = None
      /\ (latFromQuery p = None \/ lngFromQuery p = None)).
Proof.
  unfold queryBanner, initialSelectedLocation.
  destruct (latFromQuery p) as [la0|]; [|repeat split; intros; try discriminate; auto].
  destruct (number_truthy la0) eqn:Ta.
  - destruct (lngFromQuery p) as [ln0|]; [|repeat split; intros; try discriminate; auto].
    destruct (number_truthy ln0) eqn:Tn; simpl.
    + repeat split; intros; try discriminate; congruence.
    + repeat split; intros; try discriminate; try congruence.
      right. congruence.
  - simpl. destruct (lngFromQuery p) as [ln0|];
      repeat split; intros; try discriminate; try congruence; left; congruence.
Qed.

(** ** What each part of the state is written by *)

(** X11.  Entries get into the suggestion list only from the answer of a
    search: any other event leaves the list as it is or empties it. *)
Theorem suggestions_come_from_answers (m : Machine) (e : Event) :
  suggestions (page (fst (step m e))) = suggestions (page m)
  \/ suggestions (page (fst (step m e))) = []
  \/ exists answer : list Place.t,
       e = SearchSettled (Some answer)
       /\ suggestions (page (fst (step m e))) = answer.
Proof.
  destruct e; unfold step; try (left; reflexivity).
  - unfold handleSearchSubmit. destruct (suggestions (page m)) eqn:E;
      [left; simpl; exact E|right; left; reflexivity].
  - destruct (nth_error (suggestions (page m)) idx); [right; left|left]; reflexivity.
  - destruct (existsb (Z.eqb num) ratingButtons); left; reflexivity.
  - destruct (existsb (Z.eqb num) ratingButtons); left; reflexivity.
  - left. destruct (submitting (page m)); [reflexivity|].
    pose proof (handleSubmit_frame (userId (props m)) (page m)) as F.
    destruct (handleSubmit (userId (props m)) (page m)) as [st' effs].
    simpl in *. destruct F as (_ & F & _). exact F.
  - unfold elapse. destruct (timer m) as [[remaining q]|]; [|left; reflexivity].
    destruct (remaining <=? ms)%nat; [|left; reflexivity].
    unfold onDebounce. destruct (2 <? String.length q)%nat; [left|right; left]; reflexivity.
  - destruct data as [answer|]; right; [right; exists answer; split|left]; reflexivity.
  - left. pose proof (handleSubmit_settled_frame r (page m)) as F.
    destruct (handleSubmit_settled r (page m)) as [st' effs].
    simpl in *. destruct F as (_ & F & _). exact F.
Qed.

(** X12.  The status message and the submitting flag are written only by
    a press of the submit button and by the settling of its request.
    Nothing else touches them: a message, once shown, stays through
    typing, searching, rating, map clicks and the passing of time. *)
Theorem status_is_written_only_by_submission (m : Machine) (e : Event) :
  (e = SubmitClick \/ exists r : FetchOutcome, e = SubmitSettled r)
  \/ (submitMessage (page (fst (step m e))) = submitMessage (page m)
      /\ submitting (page (fst (step m e))) = submitting (page m)).
Proof.
  destruct e; unfold step;
    try (right; split; reflexivity);
    try (left; left; reflexivity);
    try (left; right; eexists; reflexivity).
  - right. unfold handleSearchSubmit. destruct (suggestions (page m)); split; reflexivity.
  - right. destruct (nth_error (suggestions (page m)) idx); split; reflexivity.
  - right. destruct (existsb (Z.eqb num) ratingButtons); split; reflexivity.
  - right. destruct (existsb (Z.eqb num) ratingButtons); split; reflexivity.
  - right. unfold elapse. destruct (timer m) as [[remaining q]|]; [|split; reflexivity].
    destruct (remaining <=? ms)%nat; [|split; reflexivity].
    unfold onDebounce. destruct (2 <? String.length q)%nat; split; reflexivity.
  - right. destruct data; split; reflexivity.
Qed.

End Coverage.

(** * Worked cases for the further properties *)

Lemma typing_reachable : reachable MoreSamples.typing.
Proof. exists Sample.visitor, [SearchInput "mum"]. reflexivity. Defined.

Lemma hovering_reachable : reachable MoreSamples.hovering.
Proof. exists Sample.visitor, [RatingClick 7; RatingMouseEnter 4]. reflexivity. Defined.

Lemma searches_are_for_the_current_text_witness :
  network_calls (snd (step MoreSamples.typing (Elapse 300)))
  = [ {| url := "https://nominatim.openstreetmap.org/search?format=json&q=mum&countrycodes=in";
         method := "GET"; headers := []; body := None |} ]
  /\ searchQuery (page MoreSamples.typing) = "mum"
  /\ (2 < String.length (searchQuery (page MoreSamples.typing)))%nat.
Proof.
  assert (network_calls (snd (step MoreSamples.typing (Elapse 300)))
          = [ {| url := "https://nominatim.openstreetmap.org/search?format=json&q=mum&countrycodes=in";
                 method := "GET"; headers := []; body := None |} ])
    as Hcalls by (vm_compute; reflexivity).
  split; [exact Hcalls|]. split; [reflexivity|].
  assert (In {| url := "https://nominatim.openstreetmap.org/search?format=json&q=mum&countrycodes=in";
                method := "GET"; headers := []; body := None |}
            (network_calls (snd (step MoreSamples.typing (Elapse 300))))) as Hin
    by (rewrite Hcalls; left; reflexivity).
  destruct (searches_are_for_the_current_text MoreSamples.typing (Elapse 300)
              _ typing_reachable Hin eq_refl) as (_ & H2 & _).
  exact H2.
Defined.

Lemma lit_buttons_are_a_prefix_witness :
  filter (ratingHighlighted (page MoreSamples.hovering)) ratingButtons = [1; 2; 3; 4]
  /\ rating (page MoreSamples.hovering) = 7.
Proof.
  destruct (lit_buttons_are_a_prefix MoreSamples.hovering hovering_reachable)
    as (H & _).
  cbv zeta in H. rewrite H. split; reflexivity.
Defined.

Lemma accepted_report_is_not_sent_again_witness :
  let settled := fst (step Sample.submitted (SubmitSettled (Response 200 ""))) in
  snd (step settled SubmitClick) = []
  /\ submitMessage (page (fst (step settled SubmitClick)))
     = "Please fill all fields and select location and rating.".
Proof.
  destruct (accepted_report_is_not_sent_again Sample.submitted 200 "" eq_refl)
    as (_ & _ & H1 & H2).
  cbv zeta in *. split; [exact H1|exact H2].
Defined.

Lemma failed_report_can_be_sent_again_witness :
  let settled :=
    fst (step (fst (step Sample.drafted SubmitClick))
           (SubmitSettled (Response 500 "db down"))) in
  network_calls (snd (step settled SubmitClick))
  = network_calls (snd (step Sample.drafted SubmitClick))
  /\ submitMessage (page settled) = "Failed to submit report. HTTP error! status: 500".
Proof.
  assert (description (page Sample.drafted) <> "") as Hd
    by (vm_compute; intros Habs; discriminate Habs).
  assert (rating (page Sample.drafted) <> 0) as Hr
    by (vm_compute; intros Habs; discriminate Habs).
  destruct (failed_report_can_be_sent_again Sample.drafted Sample.pothole
              (Response 500 "db down") eq_refl Hd eq_refl Hr eq_refl)
    as (H1 & _ & _ & _ & H2).
  cbv zeta in *. rewrite H1, H2. split; [reflexivity|].
  vm_compute. reflexivity.
Defined.

Lemma chosen_suggestion_is_searched_for_witness :
  snd (run Sample.listed [SuggestionClick 0; Elapse 300])
  = [Fetch {| url := "https://nominatim.openstreetmap.org/search?format=json&q=Mumbai%2C%20Maharashtra%2C%20India&countrycodes=in";
              method := "GET"; headers := []; body := None |}]
  /\ suggestions (page (fst (step Sample.listed (SuggestionClick 0)))) = [].
Proof.
  assert (Place.display_name Sample.mumbai <> searchQuery (page Sample.listed)) as Hnew
    by (vm_compute; intros Habs; discriminate Habs).
  assert (2 < String.length (Place.display_name Sample.mumbai))%nat as Hlong
    by (vm_compute; lia).
  assert (debounceDelay <= 300)%nat as Hquiet by (unfold debounceDelay; lia).
  destruct (chosen_suggestion_is_searched_for Sample.listed 0 Sample.mumbai 300
              [Sample.mumbai] eq_refl Hnew Hlong Hquiet) as (H1 & _ & H2 & _).
  cbv zeta in *. split; [|exact H1].
  rewrite !run_cons. rewrite H2. vm_compute. reflexivity.
Defined.

Lemma chosen_suggestion_passes_the_check_witness :
  let chosen := handleSuggestionClick MoreSamples.nowhere (page MoreSamples.misled) in
  selectedLocation chosen = Some {| lat := S754_nan; lng := S754_nan |}
  /\ network_calls (snd (handleSubmit "u1" chosen))
     = [ {| url := submitUrl; method := "POST";
            headers := [("Content-Type", "application/json")];
            body := Some (Reference.dq
              "{'userid':'u1','description':'Pothole here','latt':null,'long':null,'rating':7}")
         |} ].
Proof.
  assert (description (page MoreSamples.misled) <> "") as Hd
    by (vm_compute; intros Habs; discriminate Habs).
  assert (rating (page MoreSamples.misled) <> 0) as Hr
    by (vm_compute; intros Habs; discriminate Habs).
  destruct (chosen_suggestion_passes_the_check "u1" MoreSamples.nowhere
              (page MoreSamples.misled) Hd Hr) as (H1 & H2).
  cbv zeta in *. rewrite H1, H2. split; vm_compute; reflexivity.
Defined.

(** With [?lat=0&lng=0] the place of the query line shows the number 0,
    with [?lat=abc&lng=72.87] it shows NaN. *)
Example stray_numbers :
  queryBanner Sample.visitor_at_origin = NumberText (S754_zero false)
  /\ queryBanner MoreSamples.visitor_with_bad_latitude = NumberText S754_nan
  /\ queryBanner Sample.visitor_with_coordinate
     = QueryBanner (lat Sample.pothole) (lng Sample.pothole)
  /\ queryBanner Sample.visitor = Nothing.
Proof. vm_compute. repeat split. Qed.
